(** * nestjs-crud: pagination, relation inclusion and response shaping

    A shallow embedding of the generic CRUD layer of the repository
    (base.controller.ts, base.service.ts, apply-includes.ts,
    success-response.util.ts, pagination.dto.ts, include-query.dto.ts,
    api-response.dto.ts) and the properties its specification states.

    Conventions of the embedding:
    - a JavaScript object used as a record of named fields is a finite map
      [gmap string _]: two objects with the same fields and values are equal,
      key insertion order is not represented;
    - JavaScript numbers are the integers [Z]: page, limit, identifiers and
      row counts are validated or produced as integers ([@IsInt],
      [ParseIntPipe], SQL COUNT); NaN, infinities and fractions are not
      represented;
    - strings are byte strings; the separators the code splits on (':' and
      ',') are ASCII;
    - asynchronous calls are sequential state passing: an operation is a
      function from the world (data-access state and the trace of the
      data-access calls made so far) to an outcome and a new world. *)

From stdpp Require Import gmap strings list fin_maps pretty.
From Stdlib Require Import ZArith Lia Ascii.

Local Set Warnings "-register-all".
Local Open Scope Z_scope.

(** ** JavaScript values *)

Inductive value : Type :=
| VUndefined
| VNull
| VBool (b : bool)
| VNum (n : Z)
| VStr (s : string)
| VArr (items : list value)
| VObj (fields : gmap string value).

(** An entity ([T extends ObjectLiteral]) is an object. *)
Abbreviation entity := (gmap string value).

(** Truthiness, as used by [!x] and [a && b]. *)
Definition truthy (v : value) : bool :=
  match v with
  | VUndefined | VNull => false
  | VBool b => b
  | VNum n => negb (n =? 0)
  | VStr s => negb (String.eqb s "")
  | VArr _ | VObj _ => true
  end.

(** [v?.k]: reading property [k] through optional chaining.  Only objects
    carry named fields in this embedding. *)
Definition opt_get (v : value) (k : string) : value :=
  match v with
  | VObj m => default VUndefined (m !! k)
  | _ => VUndefined
  end.

Definition Array_isArray (v : value) : bool :=
  match v with VArr _ => true | _ => false end.

(** The elements of an array value. *)
Definition arr_items (v : value) : list value :=
  match v with VArr l => l | _ => [] end.

(** [{...v}]: the own enumerable fields copied by object spread. *)
Definition spread (v : value) : gmap string value :=
  match v with VObj m => m | _ => ∅ end.

(** ** Strings: [Array.prototype.join] and [String.prototype.split] *)

Fixpoint join (sep : string) (l : list string) : string :=
  match l with
  | [] => ""
  | [x] => x
  | x :: rest => x +:+ sep +:+ join sep rest
  end.

Fixpoint split (sep : Ascii.ascii) (s : string) : list string :=
  match s with
  | EmptyString => [EmptyString]
  | String c rest =>
      if Ascii.eqb c sep then EmptyString :: split sep rest
      else match split sep rest with
           | [] => [String c EmptyString]
           | hd :: tl => String c hd :: tl
           end
  end.

(** [s] occurs inside [t]. *)
Definition substring_of (s t : string) : Prop :=
  ∃ pre post, t = pre +:+ s +:+ post.

(** [c] does not occur in [s]. *)
Fixpoint free_of (c : Ascii.ascii) (s : string) : bool :=
  match s with
  | EmptyString => true
  | String d rest => negb (Ascii.eqb d c) && free_of c rest
  end.

(** ** Errors and outcomes *)

Definition ValidationError := string.

Inductive exn : Type :=
| BadRequestException (response : string + list ValidationError)
| NotFoundException (message : string)
| TypeError
| DataAccessError (reason : string).

(** The HTTP status the framework answers with. *)
Definition getStatus (e : exn) : Z :=
  match e with
  | BadRequestException _ => 400
  | NotFoundException _ => 404
  | TypeError | DataAccessError _ => 500
  end.

Inductive outcome (A : Type) : Type :=
| Ok (a : A)
| Throw (e : exn).
Arguments Ok {A} a.
Arguments Throw {A} e.

(** ** Response shaping (success-response.util.ts, api-response.dto.ts) *)

(** A response shape: the fields the response DTO declares with [@Expose],
    each with the groups it is restricted to (none: the default group). *)
Abbreviation ClassConstructor := (gmap string (list string)).

Definition exposed (ResponseDto : ClassConstructor) (groups : option (list string))
    (k : string) : bool :=
  match ResponseDto !! k with
  | None => false
  | Some [] => true
  | Some declared =>
      existsb (λ g, bool_decide (g ∈ default [] groups)) declared
  end.

(** Modelled from the spec: class-transformer's [plainToInstance] with
    [excludeExtraneousValues: true] is an external collaborator, absent from
    the repository.  Spec 4.3 and 6: given a target shape, a source object and
    an active group set it returns an object containing only the fields the
    shape declares as exposed for those groups, with the source's values;
    fields absent from the declared shape are dropped.  An array is projected
    element by element; null and primitives are returned as they are. *)
Fixpoint plainToInstance (ResponseDto : ClassConstructor) (v : value)
    (groups : option (list string)) : value :=
  match v with
  | VObj m => VObj (filter (λ kv, exposed ResponseDto groups kv.1 = true) m)
  | VArr l => VArr (map (λ item, plainToInstance ResponseDto item groups) l)
  | _ => v
  end.

Record ApiResponseDto : Type := {
  success : bool;
  statusCode : Z;
  message : string;
  timestamp : string;
  path : option string;
  data : value;
}.

(** The [serialized] value computed by [successResponse].  [data.map] on a
    value that is not an array raises a TypeError. *)
Definition serialize (data_ : value) (ResponseDto : option ClassConstructor)
    (isArray : bool) (groups : option (list string)) : outcome value :=
  match ResponseDto with
  | None => Ok data_
  | Some dto =>
      if isArray then
        match data_ with
        | VArr items =>
            Ok (VArr (map (λ item, plainToInstance dto item groups) items))
        | _ => Throw TypeError
        end
      else if truthy (opt_get data_ "data") && Array_isArray (opt_get data_ "data") then
        (* ---------- paginated result ---------- *)
        Ok (VObj (<["data" :=
                     VArr (map (λ item, plainToInstance dto item groups)
                               (arr_items (opt_get data_ "data")))]>
                  (spread data_)))
      else
        (* ---------- single item ---------- *)
        Ok (plainToInstance dto data_ groups)
  end.

(** [successResponse]; [now] is the reading of the clock
    ([new Date().toISOString()]).  The constructor of [ApiResponseDto]
    defaults [success] to true. *)
Definition successResponse (data_ : value) (message_ : string) (statusCode_ : Z)
    (path_ : option string) (ResponseDto : option ClassConstructor)
    (isArray : bool) (groups : option (list string)) (now : string)
    : outcome ApiResponseDto :=
  match serialize data_ ResponseDto isArray groups with
  | Throw e => Throw e
  | Ok serialized =>
      Ok {| success := true;
            statusCode := statusCode_;
            message := message_;
            timestamp := now;
            path := path_;
            data := serialized |}
  end.

(** Every object of a shaped value carries exposed fields only. *)
Fixpoint only_exposed (ResponseDto : ClassConstructor) (groups : option (list string))
    (v : value) : Prop :=
  match v with
  | VObj m => ∀ k, is_Some (m !! k) → exposed ResponseDto groups k = true
  | VArr l => fold_right (λ item acc, only_exposed ResponseDto groups item ∧ acc) True l
  | _ => True
  end.

(** ** Find options, relation inclusion and sorting *)

Inductive Direction : Type := ASC | DESC.

(** TypeORM's [FindOneOptions] / [FindManyOptions], restricted to the fields
    the repository sets. *)
Record FindOptions : Type := {
  fo_where : option value;
  fo_order : option (gmap string Direction);
  fo_relations : option (gmap string bool);
  fo_skip : option Z;
  fo_take : option Z;
}.

Definition noOptions : FindOptions :=
  {| fo_where := None; fo_order := None; fo_relations := None;
     fo_skip := None; fo_take := None |}.

(** apply-includes.ts *)
Definition applyIncludes (opts : FindOptions) (include : option (list string))
    : FindOptions :=
  match include with
  | None | Some [] => opts
  | Some l =>
      let relations := fold_left (λ acc cur, <[cur := true]> acc) l ∅ in
      {| fo_where := fo_where opts;
         fo_order := fo_order opts;
         fo_relations := Some relations;
         fo_skip := fo_skip opts;
         fo_take := fo_take opts |}
  end.

(** The [@Transform] of [include] in PaginationDto and IncludeQuery:
    [typeof value === 'string' ? value.split(',').filter(Boolean) : []]. *)
Definition includeTransform (v : value) : list string :=
  match v with
  | VStr s => filter (λ t, t ≠ "") (split ","%char s)
  | _ => []
  end.

(** [parseSort] of base.controller.ts. *)
Definition parseSort (sort : option string) : gmap string Direction :=
  match sort with
  | None | Some "" => ∅
  | Some s =>
      let parts := split ":"%char s in
      let field := default "undefined" (parts !! 0%nat) in
      let direction := parts !! 1%nat in
      {[ field := if decide (direction = Some "desc") then DESC else ASC ]}
  end.

(** ** The data-access collaborator *)

(** What a repository call answers: a result, or a failure of the data-access
    layer, which the service and the controller let through. *)
Inductive dbresult (A : Type) : Type :=
| DbOk (a : A)
| DbError (reason : string).
Arguments DbOk {A} a.
Arguments DbError {A} reason.

(** The data-access calls an operation can make, with their arguments. *)
Inductive call : Type :=
| CallFindOne (options : FindOptions)
| CallFindAndCount (options : FindOptions)
| CallSave (e : entity)
| CallUpdate (criteria partialEntity : value)
| CallSoftDelete (id : Z)
| CallDelete (id : Z).

(** TypeORM's [Repository<T>], restricted to the methods BaseService calls,
    over a store of type [Store].  [repo_create] builds an entity instance
    and touches no data. *)
Record Repository (Store : Type) : Type := {
  metadata_name : string;
  repo_findOne : FindOptions → Store → dbresult (option entity) * Store;
  repo_findAndCount : FindOptions → Store → dbresult (list entity * N) * Store;
  repo_create : value → entity;
  repo_save : entity → Store → dbresult entity * Store;
  repo_update : value → value → Store → dbresult () * Store;
  repo_softDelete : Z → Store → dbresult () * Store;
  repo_delete : Z → Store → dbresult () * Store;
}.
Arguments metadata_name {Store} _.
Arguments repo_findOne {Store} _ _ _.
Arguments repo_findAndCount {Store} _ _ _.
Arguments repo_create {Store} _ _.
Arguments repo_save {Store} _ _ _.
Arguments repo_update {Store} _ _ _ _.
Arguments repo_softDelete {Store} _ _ _.
Arguments repo_delete {Store} _ _ _.

(** ** Operations: state and exceptions *)

Record world (Store : Type) : Type := {
  db : Store;
  trace : list call;
}.
Arguments db {Store} _.
Arguments trace {Store} _.

Definition M (Store A : Type) : Type := world Store → outcome A * world Store.

Definition ret {Store A} (a : A) : M Store A := λ w, (Ok a, w).

Definition throw {Store A} (e : exn) : M Store A := λ w, (Throw e, w).

Definition bind {Store A B} (m : M Store A) (k : A → M Store B) : M Store B :=
  λ w, match m w with
       | (Ok a, w') => k a w'
       | (Throw e, w') => (Throw e, w')
       end.

Definition lift {Store A} (o : outcome A) : M Store A := λ w, (o, w).

(** An awaited repository call: it is recorded in the trace, the store moves
    on, and a failure of the data-access layer becomes an exception. *)
Definition await {Store A} (c : call) (op : Store → dbresult A * Store) : M Store A :=
  λ w, let '(r, s') := op (db w) in
       let w' := {| db := s'; trace := trace w ++ [c] |} in
       match r with
       | DbOk a => (Ok a, w')
       | DbError reason => (Throw (DataAccessError reason), w')
       end.

Declare Scope crud_scope.
Delimit Scope crud_scope with crud.
Notation "x <- m ;; k" := (bind m (λ x, k))
  (at level 100, m at next level, right associativity) : crud_scope.
Notation "m ;;; k" := (bind m (λ _, k))
  (at level 100, right associativity) : crud_scope.

(** The data-access calls an operation adds to the trace of [w]. *)
Definition calls_made {Store A} (m : M Store A) (w : world Store) : list call :=
  drop (length (trace w)) (trace (m w).2).

(** ** BaseService (base.service.ts) *)

Definition File := string.

(** The result of [paginate]. *)
Record Meta : Type := {
  total : Z;
  page : Z;
  limit : Z;
  totalPages : Z;
}.

Record Paginated : Type := {
  pg_data : list entity;
  meta : Meta;
}.

(** [Math.ceil(total / limit)] on integers, for a divisor that is not zero
    (JavaScript yields Infinity or NaN on a zero divisor, which [Z] does not
    represent). *)
Definition Math_ceil_div (n d : Z) : Z := - ((- n) / d).

Module BaseService.
Section WithRepository.
Context {Store : Type}.
Variable repository : Repository Store.
(** The overridable file hook; BaseService's own does nothing. *)
Variable handleFiles : entity → list File → M Store ().

Local Open Scope crud_scope.

Definition getEntityName : string := metadata_name repository.

Definition findOne (options : FindOptions) : M Store entity :=
  result <- await (CallFindOne options) (repo_findOne repository options) ;;
  match result with
  | None => throw (NotFoundException (getEntityName +:+ " not found"))
  | Some e => ret e
  end.

Definition create (dto : value) (files : option (list File))
    : M Store entity :=
  let entity_ := repo_create repository dto in
  saved <- await (CallSave entity_) (repo_save repository entity_) ;;
  match files with
  | Some (f :: fs) => handleFiles saved (f :: fs) ;;; ret saved
  | _ => ret saved
  end.

Definition update (criteria partialEntity : value)
    (files : option (list File)) : M Store (option entity) :=
  await (CallUpdate criteria partialEntity)
        (repo_update repository criteria partialEntity) ;;;
  let options := {| fo_where := Some criteria; fo_order := None;
                    fo_relations := None; fo_skip := None; fo_take := None |} in
  updated <- await (CallFindOne options) (repo_findOne repository options) ;;
  match updated, files with
  | Some e, Some (f :: fs) => handleFiles e (f :: fs) ;;; ret updated
  | _, _ => ret updated
  end.

Definition delete (id : Z) (soft : bool) : M Store () :=
  if soft then await (CallSoftDelete id) (repo_softDelete repository id)
  else await (CallDelete id) (repo_delete repository id).

(** [paginate]: [options] with its [page] and [limit] taken apart. *)
Definition paginate (options : FindOptions) (page_ limit_ : Z)
    : M Store Paginated :=
  let query := {| fo_where := Some (default (VObj ∅) (fo_where options));
                  fo_order := fo_order options;
                  fo_relations := fo_relations options;
                  fo_skip := Some ((page_ - 1) * limit_);
                  fo_take := Some limit_ |} in
  found <- await (CallFindAndCount query)
                 (repo_findAndCount repository query) ;;
  let rows := found.1 in
  let count := found.2 in
  ret {| pg_data := rows;
         meta := {| total := Z.of_N count;
                    page := page_;
                    limit := limit_;
                    totalPages := Math_ceil_div (Z.of_N count) limit_ |} |}.

End WithRepository.
End BaseService.

(** ** BaseController (base.controller.ts) *)

(** A create or update shape: how class-transformer instantiates it from the
    raw body and the violations class-validator reports on the instance. *)
Record Dto : Type := {
  instantiate : value → value;
  validate : value → list ValidationError;
}.

(** crud-options.interface.ts (guards, interceptors and the file field drive
    the routing framework only and are left out). *)
Record CrudOptions : Type := {
  CreateDto : option Dto;
  UpdateDto : option Dto;
  ResponseDto : option ClassConstructor;
  allowedRelationsFindOne : option (list string);
  allowedRelationsFindAll : option (list string);
  serializationGroups : option (list string);
  softDelete : option bool;
}.

(** pagination.dto.ts: the named query parameters and, through the index
    signature, the remaining keys (the filters). *)
Record PaginationDto : Type := {
  q_page : option Z;
  q_limit : option Z;
  q_sort : option string;
  q_include : option (list string);
  q_filters : gmap string value;
}.

Record Request : Type := { url : string }.

(** [allowed?.includes(r)]; an allow-list that is not configured admits
    nothing. *)
Definition includes (allowed : option (list string)) (r : string) : bool :=
  match allowed with
  | Some a => bool_decide (r ∈ a)
  | None => false
  end.

(** [include.filter((r) => !allowed?.includes(r))] *)
Definition invalidRelations (allowed : option (list string))
    (include : list string) : list string :=
  filter (λ r, includes allowed r = false) include.

(** [`Invalid relations: ${invalid.join(', ')}. Allowed: ${allowed?.join(', ')}`] *)
Definition invalidRelationsMessage (invalid : list string)
    (allowed : option (list string)) : string :=
  "Invalid relations: " +:+ join ", " invalid +:+ ". Allowed: " +:+
  match allowed with
  | Some a => join ", " a
  | None => "undefined"
  end.

Definition paginated_value (p : Paginated) : value :=
  VObj {[ "data" := VArr (VObj <$> pg_data p);
          "meta" := VObj {[ "total" := VNum (total (meta p));
                            "page" := VNum (page (meta p));
                            "limit" := VNum (limit (meta p));
                            "totalPages" := VNum (totalPages (meta p)) ]} ]}.

(** A row that may be absent ([T | null]) as a value. *)
Definition nullable (row : option entity) : value :=
  match row with
  | Some e => VObj e
  | None => VNull
  end.

Module BaseControllerHost.
Section WithOptions.
Context {Store : Type}.
Variable repository : Repository Store.
Variable handleFiles : entity → list File → M Store ().
Variable entityName : string.
Variable opts : CrudOptions.

Local Open Scope crud_scope.

(** Validation of a body against an optional shape: the instance, or a
    BadRequestException carrying the violations. *)
Definition validated (shape : option Dto) (body : value) : M Store value :=
  let entity_ := match shape with
                 | Some dto => instantiate dto body
                 | None => body
                 end in
  match shape with
  | Some dto =>
      let errors := validate dto entity_ in
      if (0 <? length errors)%nat
      then throw (BadRequestException (inr errors))
      else ret entity_
  | None => ret entity_
  end.

Definition create (createDto : value) (request : Request)
    (files : option (list File)) (now : string) : M Store ApiResponseDto :=
  entity_ <- validated (CreateDto opts) createDto ;;
  match files with
  | Some fs =>
      data_ <- BaseService.create repository handleFiles entity_ (Some fs) ;;
      lift (successResponse (VObj data_)
              (entityName +:+ " created successfully") 201
              (Some (url request)) (ResponseDto opts) false
              (serializationGroups opts) now)
  | None =>
      data_ <- BaseService.create repository handleFiles entity_ None ;;
      lift (successResponse (VObj data_)
              (entityName +:+ " created successfully") 201
              (Some (url request)) (ResponseDto opts) false
              (serializationGroups opts) now)
  end.

Definition findAll (paginationDto : PaginationDto) (req : Request)
    (now : string) : M Store ApiResponseDto :=
  let page_ := default 1 (q_page paginationDto) in
  let limit_ := default 10 (q_limit paginationDto) in
  let sort := q_sort paginationDto in
  let include := q_include paginationDto in
  let filters := q_filters paginationDto in
  match include with
  | Some (r :: rs) =>
      let invalid := invalidRelations (allowedRelationsFindAll opts) (r :: rs) in
      if (0 <? length invalid)%nat
      then throw (BadRequestException
                    (inl (invalidRelationsMessage invalid
                            (allowedRelationsFindAll opts))))
      else ret ()
  | _ => ret ()
  end ;;;
  let dbOptions :=
    applyIncludes {| fo_where := Some (VObj filters);
                     fo_order := Some (parseSort sort);
                     fo_relations := None;
                     fo_skip := None;
                     fo_take := None |} include in
  result <- BaseService.paginate repository dbOptions page_ (Z.min limit_ 100) ;;
  lift (successResponse (paginated_value result)
          (entityName +:+ " retrieved successfully") 200
          (Some (url req)) (ResponseDto opts) false
          (serializationGroups opts) now).

Definition findOne (id : Z) (req : Request) (include : option (list string))
    (now : string) : M Store ApiResponseDto :=
  match include with
  | Some (r :: rs) =>
      let invalid := invalidRelations (allowedRelationsFindOne opts) (r :: rs) in
      if (0 <? length invalid)%nat
      then throw (BadRequestException
                    (inl (invalidRelationsMessage invalid
                            (allowedRelationsFindOne opts))))
      else ret ()
  | _ => ret ()
  end ;;;
  let options :=
    applyIncludes {| fo_where := Some (VObj {[ "id" := VNum id ]});
                     fo_order := None;
                     fo_relations := None;
                     fo_skip := None;
                     fo_take := None |} include in
  data_ <- BaseService.findOne repository options ;;
  lift (successResponse (VObj data_)
          (entityName +:+ " retrieved successfully") 200
          (Some (url req)) (ResponseDto opts) false
          (serializationGroups opts) now).

Definition update (id : Z) (updateDto : value) (req : Request)
    (now : string) : M Store ApiResponseDto :=
  entity_ <- validated (UpdateDto opts) updateDto ;;
  data_ <- BaseService.update repository handleFiles
             (VObj {[ "id" := VNum id ]}) entity_ None ;;
  lift (successResponse (nullable data_)
          (entityName +:+ " updated successfully") 200
          (Some (url req)) None false None now).

Definition delete (id : Z) (req : Request) (now : string)
    : M Store ApiResponseDto :=
  BaseService.delete repository id (default true (softDelete opts)) ;;;
  lift (successResponse
          (VObj {[ "deleted" := VBool true; "id" := VNum id ]})
          (entityName +:+ " deleted successfully") 200
          (Some (url req)) None false None now).

End WithOptions.
End BaseControllerHost.

(** ** The queries the operations issue (used to state the properties) *)

(** The criteria [{ id }]. *)
Definition whereId (id : Z) : FindOptions :=
  {| fo_where := Some (VObj {[ "id" := VNum id ]}); fo_order := None;
     fo_relations := None; fo_skip := None; fo_take := None |}.

(** The options of the lookup of the detail endpoint. *)
Definition findOneOptions (id : Z) (include : option (list string)) : FindOptions :=
  applyIncludes (whereId id) include.

(** The options the list endpoint builds from the query parameters. *)
Definition findAllOptions (paginationDto : PaginationDto) : FindOptions :=
  applyIncludes {| fo_where := Some (VObj (q_filters paginationDto));
                   fo_order := Some (parseSort (q_sort paginationDto));
                   fo_relations := None; fo_skip := None; fo_take := None |}
                (q_include paginationDto).

(** The query of a page: the options with the offset and the page size. *)
Definition pageQuery (options : FindOptions) (page_ limit_ : Z) : FindOptions :=
  {| fo_where := Some (default (VObj ∅) (fo_where options));
     fo_order := fo_order options;
     fo_relations := fo_relations options;
     fo_skip := Some ((page_ - 1) * limit_);
     fo_take := Some limit_ |}.

(** The include list passes the allow-list check. *)
Definition includesAllowed (allowed : option (list string))
    (include : option (list string)) : Prop :=
  invalidRelations allowed (default [] include) = [].

(** The body passes the validation of the optional shape. *)
Definition passesValidation (shape : option Dto) (body : value) : Prop :=
  match shape with
  | Some dto => validate dto (instantiate dto body) = []
  | None => True
  end.

(** The instance handed to the service. *)
Definition instanceOf (shape : option Dto) (body : value) : value :=
  match shape with
  | Some dto => instantiate dto body
  | None => body
  end.

(** ** An in-memory repository *)

(** Modelled from the spec: the relational data-access layer (TypeORM) is an
    external collaborator, absent from the repository.  Spec 6 and glossary:
    find-one answers an entity or absent, find-many a sequence, count an
    integer, update and delete a success marker; a soft delete marks the row
    with a tombstone timestamp instead of removing it, and a plain find does
    not see tombstoned rows.  The store is the list of rows in insertion
    order; criteria are matched field by field on primitive values; the order
    directive and the relations are not interpreted. *)
Module MemoryRepository.

Definition prim_eqb (a b : value) : bool :=
  match a, b with
  | VNull, VNull => true
  | VBool x, VBool y => Bool.eqb x y
  | VNum x, VNum y => (x =? y)
  | VStr x, VStr y => String.eqb x y
  | _, _ => false
  end.

Definition matches (criteria : option value) (row : entity) : bool :=
  match criteria with
  | Some (VObj c) =>
      forallb (λ kv, match row !! kv.1 with
                     | Some v => prim_eqb kv.2 v
                     | None => false
                     end) (map_to_list c)
  | _ => true
  end.

(** A row without tombstone. *)
Definition live (row : entity) : bool :=
  match row !! "deletedAt" with
  | None | Some VNull | Some VUndefined => true
  | Some _ => false
  end.

Definition byId (id : Z) : option value := Some (VObj {[ "id" := VNum id ]}).

Definition visible (criteria : option value) (rows : list entity) : list entity :=
  filter (λ row, live row && matches criteria row = true) rows.

(** Modelled from the spec: find-one answers the first row that matches the
    criteria and carries no tombstone, or absent. *)
Definition findOne (options : FindOptions) (rows : list entity)
    : dbresult (option entity) * list entity :=
  (DbOk (head (visible (fo_where options) rows)), rows).

Definition findAndCount (options : FindOptions) (rows : list entity)
    : dbresult (list entity * N) * list entity :=
  let matching := visible (fo_where options) rows in
  let skipped := drop (Z.to_nat (default 0 (fo_skip options))) matching in
  let fetched := match fo_take options with
                 | Some n => take (Z.to_nat n) skipped
                 | None => skipped
                 end in
  (DbOk (fetched, N.of_nat (length matching)), rows).

Definition nextId (rows : list entity) : Z :=
  1 + fold_right (λ row acc, match row !! "id" with
                             | Some (VNum n) => Z.max n acc
                             | _ => acc
                             end) 0 rows.

Definition save (e : entity) (rows : list entity)
    : dbresult entity * list entity :=
  let saved := match e !! "id" with
               | Some _ => e
               | None => <["id" := VNum (nextId rows)]> e
               end in
  (DbOk saved, rows ++ [saved]).

Definition update (criteria partialEntity : value) (rows : list entity)
    : dbresult () * list entity :=
  (DbOk (), map (λ row, if matches (Some criteria) row
                        then spread partialEntity ∪ row else row) rows).

(** Modelled from the spec: soft delete marks the rows of that identifier with
    a tombstone timestamp and removes none. *)
Definition softDelete (stamp : string) (id : Z) (rows : list entity)
    : dbresult () * list entity :=
  (DbOk (), map (λ row, if matches (byId id) row
                        then <["deletedAt" := VStr stamp]> row else row) rows).

(** Modelled from the spec: hard delete removes the rows of that identifier. *)
Definition delete (id : Z) (rows : list entity)
    : dbresult () * list entity :=
  (DbOk (), filter (λ row, matches (byId id) row = false) rows).

(** Modelled from the spec: the in-memory data-access collaborator. *)
Definition repository (name stamp : string) : Repository (list entity) :=
  {| metadata_name := name;
     repo_findOne := findOne;
     repo_findAndCount := findAndCount;
     repo_create := spread;
     repo_save := save;
     repo_update := update;
     repo_softDelete := softDelete stamp;
     repo_delete := delete |}.

(** BaseService's own file hook. *)
Definition handleFiles (e : entity) (files : list File) : M (list entity) () :=
  ret ().

End MemoryRepository.

(** ** Sample data (the entity and response DTO of the end-to-end tests) *)

Definition TestResponseDto : ClassConstructor :=
  {[ "id" := []; "name" := []; "description" := ["detail"] ]}.

Definition testOptions : CrudOptions :=
  {| CreateDto := None;
     UpdateDto := None;
     ResponseDto := Some TestResponseDto;
     allowedRelationsFindOne := Some ["profile"];
     allowedRelationsFindAll := Some ["profile"];
     serializationGroups := Some ["detail"];
     softDelete := Some true |}.

Definition testRepository : Repository (list entity) :=
  MemoryRepository.repository "TestEntity" "2025-04-05T10:00:00.000Z".

Definition row1 : entity :=
  {[ "id" := VNum 1; "name" := VStr "Item 1"; "description" := VStr "Desc 1";
     "deletedAt" := VNull ]}.

Definition row2 : entity :=
  {[ "id" := VNum 2; "name" := VStr "Item 2"; "description" := VStr "Desc 2";
     "deletedAt" := VNull ]}.

Definition twoRows : world (list entity) :=
  {| db := [row1; row2]; trace := [] |}.

Definition pageOneLimitOne : PaginationDto :=
  {| q_page := Some 1; q_limit := Some 1; q_sort := None; q_include := None;
     q_filters := ∅ |}.

(** An entity that carries a column named [data] holding a list, next to a
    column the response shape does not declare. *)
Definition rowWithDataColumn : entity :=
  {[ "id" := VNum 7; "name" := VStr "Target";
     "passwordHash" := VStr "s3cret"; "data" := VArr [] ]}.

Definition rowWithSecret : entity :=
  {[ "id" := VNum 7; "name" := VStr "Target";
     "passwordHash" := VStr "s3cret" ]}.

Definition pageOfOne : entity :=
  {[ "data" := VArr [VObj rowWithSecret];
     "meta" := VObj {[ "total" := VNum 1; "page" := VNum 1;
                       "limit" := VNum 10; "totalPages" := VNum 1 ]} ]}.

Definition badIncludeQuery : PaginationDto :=
  {| q_page := None; q_limit := None; q_sort := None;
     q_include := Some ["badRelation"]; q_filters := ∅ |}.

Definition largeLimitQuery : PaginationDto :=
  {| q_page := Some 2; q_limit := Some 5000; q_sort := Some "name:desc";
     q_include := Some ["profile"]; q_filters := ∅ |}.

(** ** BaseService.findById (base.service.ts) *)

Module BaseServiceById.
Section WithRepository.
Context {Store : Type}.
Variable repository : Repository Store.

Local Open Scope crud_scope.

(** [{ where: { id }, ...options }]: a field that [options] carries replaces
    the one written before the spread. *)
Definition findByIdOptions (id : Z) (options : option FindOptions) : FindOptions :=
  let given := default noOptions options in
  {| fo_where := Some (default (VObj {[ "id" := VNum id ]}) (fo_where given));
     fo_order := fo_order given;
     fo_relations := fo_relations given;
     fo_skip := fo_skip given;
     fo_take := fo_take given |}.

(** [findById], for a numeric identifier; [`${id}`] is its decimal
    notation. *)
Definition findById (id : Z) (options : option FindOptions) : M Store entity :=
  let query := findByIdOptions id options in
  result <- await (CallFindOne query) (repo_findOne repository query) ;;
  match result with
  | None =>
      throw (NotFoundException
               (BaseService.getEntityName repository +:+ " with id " +:+
                pretty id +:+ " not found"))
  | Some e => ret e
  end.

End WithRepository.
End BaseServiceById.

(** ** More sample data *)

(** Options with nothing configured. *)
Definition bareOptions : CrudOptions :=
  {| CreateDto := None; UpdateDto := None; ResponseDto := None;
     allowedRelationsFindOne := None; allowedRelationsFindAll := None;
     serializationGroups := None; softDelete := None |}.

(** The create shape of the end-to-end tests: [name] must be a string. *)
Definition CreateTestDto : Dto :=
  {| instantiate := λ body, body;
     validate := λ instance,
       match opt_get instance "name" with
       | VStr _ => []
       | _ => ["name must be a string"]
       end |}.

Definition validatingOptions : CrudOptions :=
  {| CreateDto := Some CreateTestDto; UpdateDto := Some CreateTestDto;
     ResponseDto := Some TestResponseDto;
     allowedRelationsFindOne := Some ["profile"];
     allowedRelationsFindAll := Some ["profile"];
     serializationGroups := Some ["detail"];
     softDelete := Some false |}.

(** A file hook that fails. *)
Definition rejectingHook (e : entity) (files : list File) : M (list entity) () :=
  throw (DataAccessError "upload failed").

Definition byNameItem2 : FindOptions :=
  {| fo_where := Some (VObj {[ "name" := VStr "Item 2" ]}); fo_order := None;
     fo_relations := None; fo_skip := None; fo_take := None |}.

(** A repository whose every call fails. *)
Definition failingRepository : Repository () :=
  {| metadata_name := "TestEntity";
     repo_findOne := λ _ s, (DbError "connection lost", s);
     repo_findAndCount := λ _ s, (DbError "connection lost", s);
     repo_create := spread;
     repo_save := λ _ s, (DbError "connection lost", s);
     repo_update := λ _ _ s, (DbError "connection lost", s);
     repo_softDelete := λ _ s, (DbError "connection lost", s);
     repo_delete := λ _ s, (DbError "connection lost", s) |}.

Definition offline : world () := {| db := (); trace := [] |}.

Definition rejectingHookOffline (e : entity) (files : list File) : M () () :=
  throw (DataAccessError "upload failed").

(** * Properties *)

(** ** Strings *)

Lemma append_nil_l (b : string) : "" +:+ b = b.
Proof. reflexivity. Qed.

Lemma append_cons (c : ascii) (a b : string) :
  String c a +:+ b = String c (a +:+ b).
Proof. reflexivity. Qed.

Lemma append_nil_r (a : string) : a +:+ "" = a.
Proof.
  induction a as [|ch a IH]; [done |]. by rewrite append_cons, IH.
Qed.

Lemma append_assoc (a b c : string) : (a +:+ b) +:+ c = a +:+ (b +:+ c).
Proof.
  induction a as [|ch a IH]; [done |]. by rewrite !append_cons, IH.
Qed.

Lemma substring_of_refl (s : string) : substring_of s s.
Proof.
  exists "", "". by rewrite append_nil_l, append_nil_r.
Qed.

Lemma substring_of_append_l (s t pre : string) :
  substring_of s t → substring_of s (pre +:+ t).
Proof.
  intros (p & q & ->). exists (pre +:+ p), q. by rewrite append_assoc.
Qed.

Lemma substring_of_append_r (s t post : string) :
  substring_of s t → substring_of s (t +:+ post).
Proof.
  intros (p & q & ->). exists p, (q +:+ post). by rewrite !append_assoc.
Qed.

Lemma substring_of_join (sep t : string) (l : list string) :
  t ∈ l → substring_of t (join sep l).
Proof.
  induction l as [|x l IH]; intros Hin; [by apply elem_of_nil in Hin |].
  apply elem_of_cons in Hin as [-> | Hin].
  - destruct l as [|y l]; simpl; [apply substring_of_refl |].
    apply substring_of_append_r, substring_of_refl.
  - destruct l as [|y l]; [by apply elem_of_nil in Hin |].
    change (join sep (x :: y :: l)) with (x +:+ sep +:+ join sep (y :: l)).
    by apply substring_of_append_l, substring_of_append_l, IH.
Qed.

Lemma split_free (sep : ascii) (s : string) :
  free_of sep s = true → split sep s = [s].
Proof.
  induction s as [|c s IH]; simpl; [done |].
  intros [Hc Hs]%andb_prop. apply negb_true_iff in Hc. rewrite Hc.
  by rewrite (IH Hs).
Qed.

Lemma split_append (sep : ascii) (a b : string) :
  free_of sep a = true →
  split sep (a +:+ String sep b) = a :: split sep b.
Proof.
  induction a as [|c a IH].
  - intros _. rewrite append_nil_l. simpl. by rewrite Ascii.eqb_refl.
  - intros [Hc Ha]%andb_prop. apply negb_true_iff in Hc.
    rewrite append_cons. simpl. by rewrite Hc, (IH Ha).
Qed.

(** ** Response shaping *)

(** Induction on values that goes through array nesting (objects are
    leaves). *)
Lemma value_array_ind (P : value → Prop) :
  P VUndefined → P VNull → (∀ b, P (VBool b)) → (∀ n, P (VNum n)) →
  (∀ s, P (VStr s)) → (∀ m, P (VObj m)) →
  (∀ l, Forall P l → P (VArr l)) →
  ∀ v, P v.
Proof.
  intros Hu Hn Hb Hz Hs Ho Ha.
  fix IH 1. intros [ | | b | n | s | l | m].
  - exact Hu.
  - exact Hn.
  - exact (Hb b).
  - exact (Hz n).
  - exact (Hs s).
  - apply Ha. induction l as [|x l IHl].
    + constructor.
    + constructor; [exact (IH x) | exact IHl].
  - exact (Ho m).
Qed.

Lemma plainToInstance_only_exposed dto groups v :
  only_exposed dto groups (plainToInstance dto v groups).
Proof.
  induction v as [ | | b | n | s | m | l IH] using value_array_ind;
    simpl; try done.
  - intros k [x Hx]. by apply map_lookup_filter_Some in Hx as [_ Hx].
  - induction IH as [|x l Hx _ IHl]; simpl; [done | by split].
Qed.

Lemma map_plainToInstance_only_exposed dto groups items :
  only_exposed dto groups
    (VArr (map (λ item, plainToInstance dto item groups) items)).
Proof. exact (plainToInstance_only_exposed dto groups (VArr items)). Qed.

Lemma exposed_declared dto groups k :
  exposed dto groups k = true → is_Some (dto !! k).
Proof. unfold exposed. destruct (dto !! k); [eauto | done]. Qed.

(** The projection of single entities and of arrays: with a response shape
    configured, [successResponse] projects a single entity that has no
    array-valued [data] field of its own, and every element of an array passed
    with [isArray]; a projected object holds only fields that the shape
    declares and exposes for the active groups, with the source's values. *)
Lemma successResponse_projects_entities_and_arrays dto groups msg code p now :
  (∀ e : entity,
     Array_isArray (opt_get (VObj e) "data") = false →
     ∃ env e',
       successResponse (VObj e) msg code p (Some dto) false groups now = Ok env ∧
       data env = VObj e' ∧
       ∀ k v, e' !! k = Some v →
              e !! k = Some v ∧ is_Some (dto !! k) ∧ exposed dto groups k = true) ∧
  (∀ items : list value,
     ∃ env,
       successResponse (VArr items) msg code p (Some dto) true groups now = Ok env ∧
       data env = VArr (map (λ item, plainToInstance dto item groups) items) ∧
       only_exposed dto groups (data env)).
Proof.
  split.
  - intros e He. unfold successResponse, serialize.
    rewrite He, andb_false_r. simpl.
    eexists _, _. split; [reflexivity |]. split; [reflexivity |].
    intros k v [Hk Hx]%map_lookup_filter_Some. simpl in Hx.
    eauto using exposed_declared.
  - intros items. eexists. split; [reflexivity |]. split; [reflexivity |].
    apply map_plainToInstance_only_exposed.
Qed.

(** The projection invariant does not hold for every single entity: an
    entity whose own [data] field holds an array is taken for a paginated
    result, and all its other fields reach the output unprojected. *)
Lemma successResponse_single_entity_not_always_projected :
  ¬ (∀ (e : entity) dto groups msg code p now env,
       successResponse (VObj e) msg code p (Some dto) false groups now = Ok env →
       only_exposed dto groups (data env)).
Proof.
  intros H.
  specialize (H rowWithDataColumn TestResponseDto (Some ["detail"])
                "Test retrieved successfully" 200 (Some "/tests/7")
                "2025-04-05T10:00:00.000Z" _ eq_refl).
  assert (Hleak : exposed TestResponseDto (Some ["detail"]) "passwordHash" = true).
  { apply H. exists (VStr "s3cret"). vm_compute. reflexivity. }
  vm_compute in Hleak. discriminate Hleak.
Qed.

(** C1: the code breaks the claim.  The guard of the paginated branch,
    [data?.data && Array.isArray(data.data)], does not test for [meta]: the
    single entity [{id, name, passwordHash, data: []}], shaped with the
    response DTO of the tests (which declares id, name and description only),
    is taken for a page and returned with its [passwordHash].  On the
    single-item path the same entity without the [data] column loses that
    field, as the claim says. *)
Theorem successResponse_leaks_undeclared_field_of_entity_with_data_array :
  (∃ env,
     successResponse (VObj rowWithDataColumn) "Test retrieved successfully" 200
       (Some "/tests/7") (Some TestResponseDto) false (Some ["detail"])
       "2025-04-05T10:00:00.000Z" = Ok env ∧
     opt_get (data env) "passwordHash" = VStr "s3cret" ∧
     TestResponseDto !! "passwordHash" = None ∧
     exposed TestResponseDto (Some ["detail"]) "passwordHash" = false ∧
     ¬ only_exposed TestResponseDto (Some ["detail"]) (data env)) ∧
  (∃ env,
     successResponse (VObj rowWithSecret) "Test retrieved successfully" 200
       (Some "/tests/7") (Some TestResponseDto) false (Some ["detail"])
       "2025-04-05T10:00:00.000Z" = Ok env ∧
     opt_get (data env) "passwordHash" = VUndefined ∧
     only_exposed TestResponseDto (Some ["detail"]) (data env)).
Proof.
  split.
  - eexists. split; [reflexivity |]. split; [reflexivity |].
    split; [reflexivity |]. split; [reflexivity |].
    intros H.
    assert (Hleak : exposed TestResponseDto (Some ["detail"]) "passwordHash" = true).
    { apply H. exists (VStr "s3cret"). vm_compute. reflexivity. }
    vm_compute in Hleak. discriminate Hleak.
  - eexists. split; [reflexivity |]. split; [reflexivity |].
    exact (plainToInstance_only_exposed TestResponseDto (Some ["detail"])
             (VObj rowWithSecret)).
Qed.

(** ** Relation inclusion *)

Lemma relations_fold_lookup (l : list string) (acc : gmap string bool) (k : string) :
  fold_left (λ acc cur, <[cur := true]> acc) l acc !! k =
  if decide (k ∈ l) then Some true else acc !! k.
Proof.
  revert acc. induction l as [|x l IH]; intros acc; cbn [fold_left].
  - rewrite decide_False; [done | apply not_elem_of_nil].
  - rewrite IH. destruct (decide (k ∈ l)) as [Hl | Hl].
    + rewrite decide_True; [done | by right].
    + destruct (decide (k = x)) as [-> | Hne].
      * rewrite decide_True; [apply lookup_insert_eq | by left].
      * rewrite decide_False; [by apply lookup_insert_ne |].
        by intros [? | ?]%elem_of_cons.
Qed.

Lemma relations_fold_same_set (l1 l2 : list string) :
  list_to_set l1 =@{gset string} list_to_set l2 →
  fold_left (λ acc cur, <[cur := true]> acc) l1 (∅ : gmap string bool) =
  fold_left (λ acc cur, <[cur := true]> acc) l2 ∅.
Proof.
  intros Hset. apply map_eq. intros k. rewrite !relations_fold_lookup.
  assert (Hk : k ∈ l1 ↔ k ∈ l2).
  { rewrite <- !(elem_of_list_to_set (C:=gset string)). by rewrite Hset. }
  destruct (decide (k ∈ l1)), (decide (k ∈ l2)); tauto.
Qed.

Lemma includeTransform_empty (v : value) :
  v = VStr "" ∨ (∀ s, v ≠ VStr s) → includeTransform v = [].
Proof.
  intros [-> | Hv]; [reflexivity |].
  destruct v; try reflexivity. by destruct (Hv s).
Qed.

(** C9: the relation-inclusion resolver maps an empty or undefined include
    list (also as produced by the query transform from an empty or missing
    parameter) to the options unchanged; two include lists with the same set
    of names give equal options; and every listed relation is marked [true]
    in the resulting directive, which holds the listed names and no other. *)
Theorem applyIncludes_order_and_duplicates_irrelevant :
  (∀ opts, applyIncludes opts None = opts ∧ applyIncludes opts (Some []) = opts) ∧
  (∀ opts v, v = VStr "" ∨ (∀ s, v ≠ VStr s) →
             applyIncludes opts (Some (includeTransform v)) = opts) ∧
  (∀ opts l1 l2,
     list_to_set l1 =@{gset string} list_to_set l2 →
     applyIncludes opts (Some l1) = applyIncludes opts (Some l2)) ∧
  (∀ opts l r,
     r ∈ l →
     ∃ relations,
       fo_relations (applyIncludes opts (Some l)) = Some relations ∧
       relations !! r = Some true ∧
       dom relations = list_to_set l).
Proof.
  repeat split.
  - intros opts v Hv. by rewrite (includeTransform_empty v Hv).
  - intros opts l1 l2 Hset.
    destruct l1 as [|x1 l1], l2 as [|x2 l2]; [done | | |].
    + exfalso. assert (x2 ∈ (∅ : gset string)); [| set_solver].
      change ∅ with (list_to_set (C:=gset string) []). rewrite Hset. set_solver.
    + exfalso. assert (x1 ∈ (∅ : gset string)); [| set_solver].
      change ∅ with (list_to_set (C:=gset string) []). rewrite <- Hset. set_solver.
    + unfold applyIncludes. by rewrite (relations_fold_same_set _ _ Hset).
  - intros opts l r Hr. destruct l as [|x l]; [by apply elem_of_nil in Hr |].
    eexists. split; [reflexivity |]. split.
    + rewrite relations_fold_lookup. by rewrite decide_True.
    + apply set_eq. intros k. rewrite elem_of_dom, relations_fold_lookup.
      rewrite elem_of_list_to_set.
      destruct (decide (k ∈ x :: l)) as [Hk | Hk].
      * split; [done | eauto].
      * rewrite lookup_empty. split; [by intros [? ?] | done].
Qed.

Lemma applyIncludes_order_and_duplicates_irrelevant_witness :
  applyIncludes noOptions (Some (includeTransform VUndefined)) = noOptions ∧
  applyIncludes noOptions (Some ["posts"; "profile"; "posts"]) =
  applyIncludes noOptions (Some ["profile"; "posts"]) ∧
  ∃ relations,
    fo_relations (applyIncludes noOptions (Some ["posts"; "profile"; "posts"]))
    = Some relations ∧
    relations !! "profile" = Some true ∧
    dom relations = list_to_set ["posts"; "profile"; "posts"].
Proof.
  destruct applyIncludes_order_and_duplicates_irrelevant as (_ & H2 & H3 & H4).
  split; [| split].
  - apply H2. right. discriminate.
  - apply H3. apply set_eq. intros k. rewrite !elem_of_list_to_set.
    rewrite !elem_of_cons. rewrite elem_of_nil. tauto.
  - apply H4. right. left.
Defined.

(** ** Sorting *)

Lemma parseSort_field_direction (field direction : string) :
  free_of ":" field = true → free_of ":" direction = true →
  parseSort (Some (field +:+ ":" +:+ direction)) =
  {[ field := if decide (direction = "desc") then DESC else ASC ]}.
Proof.
  intros Hf Hd. unfold parseSort.
  change (":" +:+ direction) with (String ":" direction).
  rewrite (split_append _ _ _ Hf), (split_free _ _ Hd). simpl.
  destruct field as [|c field]; simpl.
  - f_equal. destruct (decide (Some direction = Some "desc")) as [[= ->] | Hne];
      [done | by rewrite decide_False by congruence].
  - f_equal. destruct (decide (Some direction = Some "desc")) as [[= ->] | Hne];
      [done | by rewrite decide_False by congruence].
Qed.

Lemma parseSort_field_only (field : string) :
  field ≠ "" → free_of ":" field = true →
  parseSort (Some field) = {[ field := ASC ]}.
Proof.
  intros Hne Hf. unfold parseSort. rewrite (split_free _ _ Hf).
  destruct field; [done | reflexivity].
Qed.

(** C5: the direction is compared to the lower-case string "desc" only.  On
    the form the README documents, "name:DESC", the order directive is
    ascending; so it is on "name:Desc"; only "name:desc" sorts descending.
    An absent sort parameter gives the empty directive. *)
Theorem parseSort_upper_case_DESC_sorts_ascending :
  parseSort (Some "name:DESC") = {[ "name" := ASC ]} ∧
  parseSort (Some "name:Desc") = {[ "name" := ASC ]} ∧
  parseSort (Some "name:desc") = {[ "name" := DESC ]} ∧
  parseSort None = ∅.
Proof. repeat split; reflexivity. Qed.

(** ** Pagination arithmetic *)

Lemma Math_ceil_div_bounds (n d : Z) :
  0 < d → (Math_ceil_div n d - 1) * d < n ≤ Math_ceil_div n d * d.
Proof.
  intros Hd. unfold Math_ceil_div.
  pose proof (Z.mul_div_le (- n) d Hd).
  pose proof (Z.mul_succ_div_gt (- n) d Hd).
  nia.
Qed.

Lemma Math_ceil_div_zero_iff (n d : Z) :
  0 ≤ n → 0 < d → Math_ceil_div n d = 0 ↔ n = 0.
Proof.
  intros Hn Hd. pose proof (Math_ceil_div_bounds n d Hd). split; intros; nia.
Qed.

(** ** Running operations *)

Lemma calls_made_unchanged {Store A} (m : M Store A) (w : world Store) r :
  m w = (r, w) → calls_made m w = [].
Proof. intros H. unfold calls_made. rewrite H. simpl. apply drop_all. Qed.

Lemma invalidRelations_spec allowed include r :
  r ∈ invalidRelations allowed include ↔ r ∈ include ∧ includes allowed r = false.
Proof. unfold invalidRelations. rewrite list_elem_of_filter. tauto. Qed.

Lemma invalidRelations_nonempty allowed include r :
  r ∈ include → includes allowed r = false →
  (0 <? length (invalidRelations allowed include))%nat = true.
Proof.
  intros Hr Ha.
  assert (Hin : r ∈ invalidRelations allowed include)
    by by apply invalidRelations_spec.
  destruct (invalidRelations allowed include); [by apply elem_of_nil in Hin | done].
Qed.

Lemma invalidRelationsMessage_names allowed include :
  let msg := invalidRelationsMessage (invalidRelations allowed include) allowed in
  (∀ t, t ∈ include → includes allowed t = false → substring_of t msg) ∧
  (∀ a l, allowed = Some l → a ∈ l → substring_of a msg).
Proof.
  unfold invalidRelationsMessage. split.
  - intros t Ht Ha. apply substring_of_append_l, substring_of_append_r.
    by apply substring_of_join, invalidRelations_spec.
  - intros a l -> Ha. do 3 apply substring_of_append_l.
    by apply substring_of_join.
Qed.

(** ** The list and detail endpoints *)

Section Endpoints.
Context {Store : Type}.
Variable repository : Repository Store.
Variable entityName : string.
Variable opts : CrudOptions.

Lemma findAll_rejected paginationDto req now w include r :
  q_include paginationDto = Some include →
  r ∈ include → includes (allowedRelationsFindAll opts) r = false →
  BaseControllerHost.findAll repository entityName opts paginationDto req now w =
  (Throw (BadRequestException
            (inl (invalidRelationsMessage
                    (invalidRelations (allowedRelationsFindAll opts) include)
                    (allowedRelationsFindAll opts)))), w).
Proof.
  intros Hinc Hr Ha. unfold BaseControllerHost.findAll. cbv zeta.
  rewrite Hinc. destruct include as [|x l]; [by apply elem_of_nil in Hr |].
  unfold bind, throw.
  by rewrite (invalidRelations_nonempty _ _ _ Hr Ha).
Qed.

Lemma findOne_rejected id req now w include r :
  r ∈ include → includes (allowedRelationsFindOne opts) r = false →
  BaseControllerHost.findOne repository entityName opts id req (Some include) now w =
  (Throw (BadRequestException
            (inl (invalidRelationsMessage
                    (invalidRelations (allowedRelationsFindOne opts) include)
                    (allowedRelationsFindOne opts)))), w).
Proof.
  intros Hr Ha. unfold BaseControllerHost.findOne.
  destruct include as [|x l]; [by apply elem_of_nil in Hr |].
  unfold bind, throw.
  by rewrite (invalidRelations_nonempty _ _ _ Hr Ha).
Qed.

(** The list endpoint once its include list has passed the check: one
    findAndCount call, then the shaping of its result. *)
Lemma findAll_accepted paginationDto req now w :
  includesAllowed (allowedRelationsFindAll opts) (q_include paginationDto) →
  let page_ := default 1 (q_page paginationDto) in
  let limit_ := Z.min (default 10 (q_limit paginationDto)) 100 in
  let query := pageQuery (findAllOptions paginationDto) page_ limit_ in
  let answer := repo_findAndCount repository query (db w) in
  let w' := {| db := answer.2; trace := trace w ++ [CallFindAndCount query] |} in
  BaseControllerHost.findAll repository entityName opts paginationDto req now w =
  match answer.1 with
  | DbOk found =>
      (successResponse
         (paginated_value
            {| pg_data := found.1;
               meta := {| total := Z.of_N found.2; page := page_; limit := limit_;
                          totalPages := Math_ceil_div (Z.of_N found.2) limit_ |} |})
         (entityName +:+ " retrieved successfully") 200 (Some (url req))
         (ResponseDto opts) false (serializationGroups opts) now, w')
  | DbError reason => (Throw (DataAccessError reason), w')
  end.
Proof.
  unfold includesAllowed. intros Hok. cbv zeta.
  unfold BaseControllerHost.findAll, BaseService.paginate. cbv zeta.
  fold (findAllOptions paginationDto).
  fold (pageQuery (findAllOptions paginationDto)
          (default 1 (q_page paginationDto))
          (Z.min (default 10 (q_limit paginationDto)) 100)).
  set (query := pageQuery _ _ _).
  unfold bind at 1.
  replace (match q_include paginationDto with
           | Some (r :: rs) => _
           | _ => ret ()
           end w) with (@Ok () (), w);
    [| destruct (q_include paginationDto) as [[|x l]|]; try reflexivity;
       simpl in Hok; by rewrite Hok].
  unfold bind, await, ret, lift.
  destruct (repo_findAndCount repository query (db w)) as [[found | reason] s'];
    simpl; [| reflexivity].
  destruct (successResponse _ _ _ _ _ _ _ _); reflexivity.
Qed.

(** The detail endpoint once its include list has passed the check: one
    findOne call, a NotFoundException on an absent row, the shaping of the
    row otherwise. *)
Lemma findOne_accepted id req include now w :
  includesAllowed (allowedRelationsFindOne opts) include →
  let options := findOneOptions id include in
  let answer := repo_findOne repository options (db w) in
  let w' := {| db := answer.2; trace := trace w ++ [CallFindOne options] |} in
  BaseControllerHost.findOne repository entityName opts id req include now w =
  match answer.1 with
  | DbOk (Some e) =>
      (successResponse (VObj e) (entityName +:+ " retrieved successfully") 200
         (Some (url req)) (ResponseDto opts) false (serializationGroups opts) now,
       w')
  | DbOk None =>
      (Throw (NotFoundException (metadata_name repository +:+ " not found")), w')
  | DbError reason => (Throw (DataAccessError reason), w')
  end.
Proof.
  unfold includesAllowed. intros Hok. cbv zeta.
  unfold BaseControllerHost.findOne, BaseService.findOne,
    BaseService.getEntityName.
  fold (whereId id). fold (findOneOptions id include).
  set (options := findOneOptions id include).
  unfold bind at 1.
  replace (match include with
           | Some (r :: rs) => _
           | _ => ret ()
           end w) with (@Ok () (), w);
    [| destruct include as [[|x l]|]; try reflexivity;
       simpl in Hok; by rewrite Hok].
  unfold bind, await, ret, lift, throw.
  destruct (repo_findOne repository options (db w)) as [[[e|] | reason] s'];
    reflexivity.
Qed.

End Endpoints.

Lemma serialize_single_ok data_ dto groups :
  ∃ shaped, serialize data_ dto false groups = Ok shaped.
Proof.
  unfold serialize. destruct dto as [dto|]; [| eauto].
  destruct (truthy _ && Array_isArray _); eauto.
Qed.

Lemma successResponse_single_ok data_ msg code p dto groups now :
  ∃ env,
    successResponse data_ msg code p dto false groups now = Ok env ∧
    success env = true ∧ statusCode env = code ∧ message env = msg ∧
    timestamp env = now ∧ path env = p ∧
    serialize data_ dto false groups = Ok (data env).
Proof.
  unfold successResponse.
  destruct (serialize_single_ok data_ dto groups) as [shaped ->].
  eexists. repeat split; reflexivity.
Qed.

(** C2: on the list endpoint and on the detail endpoint, an include list
    with at least one name outside the allow-list of the operation fails with
    a BadRequestException (HTTP 400) whose message names every invalid token
    and every name of the allow-list, and makes no data-access call: the
    world, with its trace of calls, is unchanged. *)
Theorem invalid_include_rejected_without_data_access
    {Store : Type} (repository : Repository Store) (entityName : string)
    (opts : CrudOptions) :
  (∀ paginationDto req now w include r,
     q_include paginationDto = Some include →
     r ∈ include → includes (allowedRelationsFindAll opts) r = false →
     ∃ msg,
       BaseControllerHost.findAll repository entityName opts paginationDto req now w
       = (Throw (BadRequestException (inl msg)), w) ∧
       getStatus (BadRequestException (inl msg)) = 400 ∧
       calls_made (BaseControllerHost.findAll repository entityName opts
                     paginationDto req now) w = [] ∧
       (∀ t, t ∈ include → includes (allowedRelationsFindAll opts) t = false →
             substring_of t msg) ∧
       (∀ a allowed, allowedRelationsFindAll opts = Some allowed → a ∈ allowed →
                     substring_of a msg)) ∧
  (∀ id req now w include r,
     r ∈ include → includes (allowedRelationsFindOne opts) r = false →
     ∃ msg,
       BaseControllerHost.findOne repository entityName opts id req (Some include) now w
       = (Throw (BadRequestException (inl msg)), w) ∧
       getStatus (BadRequestException (inl msg)) = 400 ∧
       calls_made (BaseControllerHost.findOne repository entityName opts id req
                     (Some include) now) w = [] ∧
       (∀ t, t ∈ include → includes (allowedRelationsFindOne opts) t = false →
             substring_of t msg) ∧
       (∀ a allowed, allowedRelationsFindOne opts = Some allowed → a ∈ allowed →
                     substring_of a msg)).
Proof.
  split.
  - intros paginationDto req now w include r Hinc Hr Ha.
    pose proof (findAll_rejected repository entityName opts paginationDto req now w
                  include r Hinc Hr Ha) as Hrun.
    eexists. split; [exact Hrun |]. split; [reflexivity |].
    split; [by eapply calls_made_unchanged |].
    apply invalidRelationsMessage_names.
  - intros id req now w include r Hr Ha.
    pose proof (findOne_rejected repository entityName opts id req now w
                  include r Hr Ha) as Hrun.
    eexists. split; [exact Hrun |]. split; [reflexivity |].
    split; [by eapply calls_made_unchanged |].
    apply invalidRelationsMessage_names.
Qed.

Lemma invalid_include_rejected_without_data_access_witness :
  (∃ msg,
     BaseControllerHost.findAll testRepository "Test" testOptions badIncludeQuery
       {| url := "/tests?include=badRelation" |} "2025-04-05T10:00:00.000Z" twoRows
     = (Throw (BadRequestException (inl msg)), twoRows) ∧
     substring_of "badRelation" msg ∧ substring_of "profile" msg) ∧
  (∃ msg,
     BaseControllerHost.findOne testRepository "Test" testOptions 1
       {| url := "/tests/1?include=badRelation" |} (Some ["profile"; "badRelation"])
       "2025-04-05T10:00:00.000Z" twoRows
     = (Throw (BadRequestException (inl msg)), twoRows) ∧
     substring_of "badRelation" msg ∧ substring_of "profile" msg).
Proof.
  destruct (invalid_include_rejected_without_data_access
              testRepository "Test" testOptions) as [Hall Hone].
  split.
  - destruct (Hall badIncludeQuery {| url := "/tests?include=badRelation" |}
                "2025-04-05T10:00:00.000Z" twoRows ["badRelation"] "badRelation")
      as (msg & Hrun & _ & _ & Hbad & Hallow).
    + reflexivity.
    + apply list_elem_of_In. simpl. tauto.
    + reflexivity.
    + exists msg. split; [exact Hrun |]. split.
      * apply Hbad; [apply list_elem_of_In; simpl; tauto | reflexivity].
      * apply (Hallow "profile" ["profile"]);
          [reflexivity | apply list_elem_of_In; simpl; tauto].
  - destruct (Hone 1 {| url := "/tests/1?include=badRelation" |}
                "2025-04-05T10:00:00.000Z" twoRows ["profile"; "badRelation"]
                "badRelation")
      as (msg & Hrun & _ & _ & Hbad & Hallow).
    + apply list_elem_of_In. simpl. tauto.
    + reflexivity.
    + exists msg. split; [exact Hrun |]. split.
      * apply Hbad; [apply list_elem_of_In; simpl; tauto | reflexivity].
      * apply (Hallow "profile" ["profile"]);
          [reflexivity | apply list_elem_of_In; simpl; tauto].
Defined.

Lemma findAll_calls_accepted {Store : Type} (repository : Repository Store)
    entityName opts paginationDto req now w :
  includesAllowed (allowedRelationsFindAll opts) (q_include paginationDto) →
  calls_made (BaseControllerHost.findAll repository entityName opts
                paginationDto req now) w =
  [CallFindAndCount
     (pageQuery (findAllOptions paginationDto)
        (default 1 (q_page paginationDto))
        (Z.min (default 10 (q_limit paginationDto)) 100))].
Proof.
  intros Hok. unfold calls_made.
  rewrite (findAll_accepted repository entityName opts paginationDto req now w Hok).
  cbv zeta. destruct (repo_findAndCount _ _ _).1; simpl; by rewrite drop_app_length.
Qed.

Lemma findAll_calls_rejected {Store : Type} (repository : Repository Store)
    entityName opts paginationDto req now w :
  ¬ includesAllowed (allowedRelationsFindAll opts) (q_include paginationDto) →
  calls_made (BaseControllerHost.findAll repository entityName opts
                paginationDto req now) w = [].
Proof.
  unfold includesAllowed. intros Hbad.
  destruct (q_include paginationDto) as [include|] eqn:Hinc; [| by destruct Hbad].
  simpl in Hbad.
  destruct (invalidRelations (allowedRelationsFindAll opts) include)
    as [|r rest] eqn:Hinv; [done |].
  assert (Hr : r ∈ invalidRelations (allowedRelationsFindAll opts) include)
    by (rewrite Hinv; left).
  apply invalidRelations_spec in Hr as [Hr Ha].
  eapply calls_made_unchanged.
  exact (findAll_rejected repository entityName opts paginationDto req now w
           include r Hinc Hr Ha).
Qed.

Lemma includesAllowed_dec allowed include :
  includesAllowed allowed include ∨ ¬ includesAllowed allowed include.
Proof.
  unfold includesAllowed.
  destruct (invalidRelations allowed (default [] include)); [by left | by right].
Qed.

(** C3: every data-access call the list endpoint makes is a findAndCount
    whose page size ([take]) is at most 100, whatever limit is requested; on
    a request whose limit is greater than 100 the page size is 100, and when
    the include list is allowed there is exactly one such call, at offset
    [(page - 1) * 100]. *)
Theorem findAll_limit_capped_at_100
    {Store : Type} (repository : Repository Store) (entityName : string)
    (opts : CrudOptions) paginationDto req now w :
  let made := calls_made (BaseControllerHost.findAll repository entityName opts
                            paginationDto req now) w in
  Forall (λ c, ∃ query n,
            c = CallFindAndCount query ∧ fo_take query = Some n ∧ n ≤ 100) made ∧
  ∀ requested : Z,
    q_limit paginationDto = Some requested → 100 < requested →
    Forall (λ c, ∃ query, c = CallFindAndCount query ∧ fo_take query = Some 100)
           made ∧
    (includesAllowed (allowedRelationsFindAll opts) (q_include paginationDto) →
     ∃ query,
       made = [CallFindAndCount query] ∧
       fo_take query = Some 100 ∧
       fo_skip query = Some ((default 1 (q_page paginationDto) - 1) * 100)).
Proof.
  intros made.
  destruct (includesAllowed_dec (allowedRelationsFindAll opts)
              (q_include paginationDto)) as [Hok | Hbad].
  - assert (Hmade : made =
      [CallFindAndCount
         (pageQuery (findAllOptions paginationDto)
            (default 1 (q_page paginationDto))
            (Z.min (default 10 (q_limit paginationDto)) 100))])
      by exact (findAll_calls_accepted _ _ _ _ _ _ _ Hok).
    rewrite Hmade. split.
    + constructor; [| constructor]. eexists _, _.
      split; [reflexivity |]. split; [reflexivity | lia].
    + intros requested Hlimit Hlarge.
      assert (Hmin : Z.min (default 10 (q_limit paginationDto)) 100 = 100).
      { rewrite Hlimit. simpl. lia. }
      rewrite Hmin. split.
      * constructor; [| constructor]. eexists. split; reflexivity.
      * intros _. eexists. split; [reflexivity |]. split; reflexivity.
  - assert (Hmade : made = [])
      by exact (findAll_calls_rejected _ _ _ _ _ _ _ Hbad).
    rewrite Hmade. split; [constructor |].
    intros requested _ _. split; [constructor | done].
Qed.

Lemma findAll_limit_capped_at_100_witness :
  ∃ query,
    calls_made (BaseControllerHost.findAll testRepository "Test" testOptions
                  largeLimitQuery {| url := "/tests?limit=5000" |}
                  "2025-04-05T10:00:00.000Z") twoRows
    = [CallFindAndCount query] ∧
    fo_take query = Some 100 ∧ fo_skip query = Some 100.
Proof.
  apply (proj2 (findAll_limit_capped_at_100 testRepository "Test" testOptions
                  largeLimitQuery {| url := "/tests?limit=5000" |}
                  "2025-04-05T10:00:00.000Z" twoRows) 5000 eq_refl eq_refl).
  reflexivity.
Defined.

(** C4: for [page ≥ 1] and [limit ≥ 1], [paginate] makes one findAndCount
    call, on the given options with offset [(page - 1) * limit] (which is not
    negative) and page size [limit]; on its answer it returns the rows with a
    meta that echoes the total, the page and the limit, and whose
    [totalPages] is the ceiling of [total / limit]: the integer [n] with
    [(n - 1) * limit < total ≤ n * limit]; [totalPages] is 0 exactly when the
    total is 0. *)
Theorem paginate_offset_and_totalPages
    {Store : Type} (repository : Repository Store) (options : FindOptions)
    (page_ limit_ : Z) (w : world Store) :
  1 ≤ page_ → 1 ≤ limit_ →
  let query := pageQuery options page_ limit_ in
  calls_made (BaseService.paginate repository options page_ limit_) w
  = [CallFindAndCount query] ∧
  fo_skip query = Some ((page_ - 1) * limit_) ∧ 0 ≤ (page_ - 1) * limit_ ∧
  fo_take query = Some limit_ ∧
  ∀ rows count s',
    repo_findAndCount repository query (db w) = (DbOk (rows, count), s') →
    ∃ result,
      (BaseService.paginate repository options page_ limit_ w).1 = Ok result ∧
      pg_data result = rows ∧
      total (meta result) = Z.of_N count ∧
      page (meta result) = page_ ∧
      limit (meta result) = limit_ ∧
      (totalPages (meta result) - 1) * limit_ < Z.of_N count
        ≤ totalPages (meta result) * limit_ ∧
      (totalPages (meta result) = 0 ↔ total (meta result) = 0).
Proof.
  intros Hpage Hlimit query. unfold query.
  split.
  { unfold calls_made, BaseService.paginate, bind, await, ret. cbv zeta.
    fold (pageQuery options page_ limit_).
    destruct (repo_findAndCount repository _ (db w)) as [[found | reason] s'];
      simpl; by rewrite drop_app_length. }
  split; [reflexivity |]. split; [nia |]. split; [reflexivity |].
  intros rows count s' Hanswer.
  unfold BaseService.paginate, bind, await, ret. cbv zeta.
  fold (pageQuery options page_ limit_). rewrite Hanswer. simpl.
  eexists. split; [reflexivity |]. simpl. do 4 (split; [reflexivity |]).
  split.
  - apply Math_ceil_div_bounds. lia.
  - apply Math_ceil_div_zero_iff; lia.
Qed.

Lemma paginate_offset_and_totalPages_witness :
  calls_made (BaseService.paginate testRepository noOptions 1 1) twoRows
  = [CallFindAndCount (pageQuery noOptions 1 1)] ∧
  ∃ result,
    (BaseService.paginate testRepository noOptions 1 1 twoRows).1 = Ok result ∧
    pg_data result = [row1] ∧
    total (meta result) = 2 ∧
    page (meta result) = 1 ∧
    limit (meta result) = 1 ∧
    (totalPages (meta result) - 1) * 1 < 2 ≤ totalPages (meta result) * 1 ∧
    (totalPages (meta result) = 0 ↔ total (meta result) = 0).
Proof.
  destruct (paginate_offset_and_totalPages testRepository noOptions 1 1 twoRows)
    as (Hcalls & _ & _ & _ & Hanswer); [lia | lia |].
  split; [exact Hcalls |].
  exact (Hanswer [row1] 2%N [row1; row2] eq_refl).
Defined.

(** The scenario of the specification: two rows, page 1, limit 1. *)
Example paginate_two_rows_limit_one :
  (BaseService.paginate testRepository noOptions 1 1 twoRows).1 =
  Ok {| pg_data := [row1];
        meta := {| total := 2; page := 1; limit := 1; totalPages := 2 |} |}.
Proof. reflexivity. Qed.

(** C6: on the detail endpoint, once the include list has passed the
    allow-list check, one lookup is made, by the identifier with the
    relations applied; the operation fails with a NotFoundException (HTTP
    404) if and only if that lookup answers absent; when it answers an
    entity, the operation returns an envelope with status 200 whose data is
    that entity shaped with the configured response shape and groups. *)
Theorem findOne_not_found_iff_lookup_absent
    {Store : Type} (repository : Repository Store) (entityName : string)
    (opts : CrudOptions) (id : Z) req include now (w : world Store) :
  includesAllowed (allowedRelationsFindOne opts) include →
  let run := BaseControllerHost.findOne repository entityName opts id req
               include now in
  let lookup := (repo_findOne repository (findOneOptions id include) (db w)).1 in
  calls_made run w = [CallFindOne (findOneOptions id include)] ∧
  fo_where (findOneOptions id include) = Some (VObj {[ "id" := VNum id ]}) ∧
  ((run w).1 = Throw (NotFoundException (metadata_name repository +:+ " not found"))
   ↔ lookup = DbOk None) ∧
  ((∃ e, (run w).1 = Throw e ∧ getStatus e = 404) ↔ lookup = DbOk None) ∧
  (∀ e, lookup = DbOk (Some e) →
        ∃ env,
          (run w).1 = Ok env ∧ success env = true ∧ statusCode env = 200 ∧
          path env = Some (url req) ∧
          serialize (VObj e) (ResponseDto opts) false (serializationGroups opts)
          = Ok (data env)).
Proof.
  intros Hok run lookup. unfold run, lookup, calls_made.
  rewrite (findOne_accepted repository entityName opts id req include now w Hok).
  cbv zeta.
  destruct (repo_findOne repository (findOneOptions id include) (db w))
    as [[[e|] | reason] s'] eqn:Hanswer; simpl.
  - destruct (successResponse_single_ok (VObj e)
                (entityName +:+ " retrieved successfully") 200 (Some (url req))
                (ResponseDto opts) (serializationGroups opts) now)
      as (env & -> & Hs & Hc & _ & _ & Hp & Hd).
    simpl. rewrite drop_app_length.
    split; [done |]. split; [by destruct include as [[|? ?]|] |].
    split; [done |].
    split; [split; [by intros (? & ? & ?) | done] |].
    intros e' [= <-]. eauto 10.
  - rewrite drop_app_length.
    split; [done |]. split; [by destruct include as [[|? ?]|] |].
    split; [split; eauto |]. split; [split; eauto |]. done.
  - rewrite drop_app_length.
    split; [done |]. split; [by destruct include as [[|? ?]|] |].
    split; [done |].
    split; [split; [by intros (? & [= <-] & ?) | done] |]. done.
Qed.

Lemma findOne_not_found_iff_lookup_absent_witness :
  (BaseControllerHost.findOne testRepository "Test" testOptions 999
     {| url := "/tests/999" |} None "2025-04-05T10:00:00.000Z" twoRows).1
  = Throw (NotFoundException "TestEntity not found") ∧
  ∃ env,
    (BaseControllerHost.findOne testRepository "Test" testOptions 2
       {| url := "/tests/2" |} (Some ["profile"]) "2025-04-05T10:00:00.000Z"
       twoRows).1 = Ok env ∧
    success env = true ∧ statusCode env = 200 ∧ path env = Some "/tests/2" ∧
    serialize (VObj row2) (Some TestResponseDto) false (Some ["detail"])
    = Ok (data env).
Proof.
  split.
  - destruct (findOne_not_found_iff_lookup_absent testRepository "Test" testOptions
                999 {| url := "/tests/999" |} None "2025-04-05T10:00:00.000Z"
                twoRows eq_refl) as (_ & _ & [_ Habsent] & _).
    exact (Habsent eq_refl).
  - destruct (findOne_not_found_iff_lookup_absent testRepository "Test" testOptions
                2 {| url := "/tests/2" |} (Some ["profile"])
                "2025-04-05T10:00:00.000Z" twoRows eq_refl)
      as (_ & _ & _ & _ & Hfound).
    exact (Hfound row2 eq_refl).
Defined.

(** ** The update endpoint *)

Section Update.
Context {Store : Type}.
Variable repository : Repository Store.
Variable handleFiles : entity → list File → M Store ().
Variable entityName : string.
Variable opts : CrudOptions.

Lemma validated_passes shape body (w : world Store) :
  passesValidation shape body →
  BaseControllerHost.validated shape body w = (Ok (instanceOf shape body), w).
Proof.
  unfold passesValidation, BaseControllerHost.validated, instanceOf.
  destruct shape as [dto|]; [| done]. by intros ->.
Qed.

Lemma validated_fails shape body (w : world Store) :
  ¬ passesValidation shape body →
  ∃ errors,
    BaseControllerHost.validated shape body w
    = (Throw (BadRequestException (inr errors)), w).
Proof.
  unfold passesValidation, BaseControllerHost.validated.
  destruct shape as [dto|]; [| by intros []].
  destruct (validate dto (instantiate dto body)) as [|e errors]; [done |].
  intros _. by eexists.
Qed.

Lemma passesValidation_dec shape body :
  passesValidation shape body ∨ ¬ passesValidation shape body.
Proof.
  unfold passesValidation. destruct shape as [dto|]; [| by left].
  destruct (validate dto (instantiate dto body)); [by left | by right].
Qed.

(** The update endpoint on a body that passes validation: the partial
    update, the re-fetch by the same criteria, and the envelope built from
    the re-fetched row as it is. *)
Lemma update_validated id updateDto req now w :
  passesValidation (UpdateDto opts) updateDto →
  let criteria := VObj {[ "id" := VNum id ]} in
  let partialEntity := instanceOf (UpdateDto opts) updateDto in
  let updated := repo_update repository criteria partialEntity (db w) in
  let fetched := repo_findOne repository (whereId id) updated.2 in
  BaseControllerHost.update repository handleFiles entityName opts id updateDto
    req now w =
  match updated.1 with
  | DbError reason =>
      (Throw (DataAccessError reason),
       {| db := updated.2;
          trace := trace w ++ [CallUpdate criteria partialEntity] |})
  | DbOk _ =>
      (match fetched.1 with
       | DbError reason => Throw (DataAccessError reason)
       | DbOk row =>
           Ok {| success := true; statusCode := 200;
                 message := entityName +:+ " updated successfully";
                 timestamp := now; path := Some (url req);
                 data := nullable row |}
       end,
       {| db := fetched.2;
          trace := trace w ++ [CallUpdate criteria partialEntity;
                               CallFindOne (whereId id)] |})
  end.
Proof.
  intros Hvalid. cbv zeta.
  unfold BaseControllerHost.update. unfold bind at 1.
  rewrite (validated_passes _ _ w Hvalid).
  unfold BaseService.update. fold (whereId id).
  unfold bind, await, ret, lift. simpl.
  destruct (repo_update repository _ _ (db w)) as [[[] | reason] s1];
    simpl; [| reflexivity].
  destruct (repo_findOne repository (whereId id) s1) as [[row | reason] s2];
    simpl; rewrite <- app_assoc; simpl; [| reflexivity].
  by destruct row.
Qed.

End Update.

(** C8: whenever the update endpoint succeeds, the data of its envelope is
    the row re-fetched after the partial update (null when the re-fetch finds
    none), as it is: neither the response shape nor the serialization groups
    of the options are applied, whatever they are. *)
Theorem update_response_is_unprojected_row
    {Store : Type} (repository : Repository Store)
    (handleFiles : entity → list File → M Store ()) (entityName : string)
    (opts : CrudOptions) (id : Z) updateDto req now (w : world Store) env :
  (BaseControllerHost.update repository handleFiles entityName opts id updateDto
     req now w).1 = Ok env →
  let afterUpdate :=
    (repo_update repository (VObj {[ "id" := VNum id ]})
       (instanceOf (UpdateDto opts) updateDto) (db w)).2 in
  ∃ row,
    (repo_findOne repository (whereId id) afterUpdate).1 = DbOk row ∧
    data env = nullable row ∧
    statusCode env = 200 ∧ success env = true.
Proof.
  intros Hrun afterUpdate. unfold afterUpdate.
  destruct (passesValidation_dec (UpdateDto opts) updateDto) as [Hvalid | Hinvalid].
  - rewrite (update_validated repository handleFiles entityName opts id updateDto
               req now w Hvalid) in Hrun. cbv zeta in Hrun.
    destruct (repo_update repository _ _ (db w)) as [[[] | reason] s1];
      simpl in *; [| discriminate].
    destruct (repo_findOne repository (whereId id) s1) as [[row | reason] s2];
      simpl in *; [| discriminate].
    injection Hrun as <-. eauto.
  - destruct (validated_fails (Store:=Store) (UpdateDto opts) updateDto w Hinvalid)
      as [errors Hfail].
    unfold BaseControllerHost.update in Hrun. unfold bind at 1 in Hrun.
    rewrite Hfail in Hrun. discriminate.
Qed.

Lemma update_response_is_unprojected_row_witness :
  let env := {| success := true; statusCode := 200;
                message := "Test updated successfully";
                timestamp := "2025-04-05T10:00:00.000Z";
                path := Some "/tests/1";
                data := VObj (<["name" := VStr "Updated"]> row1) |} in
  (BaseControllerHost.update testRepository MemoryRepository.handleFiles "Test"
     testOptions 1 (VObj {[ "name" := VStr "Updated" ]}) {| url := "/tests/1" |}
     "2025-04-05T10:00:00.000Z" twoRows).1 = Ok env ∧
  opt_get (data env) "deletedAt" = VNull ∧ TestResponseDto !! "deletedAt" = None ∧
  ∃ row,
    (repo_findOne testRepository (whereId 1)
       (repo_update testRepository (VObj {[ "id" := VNum 1 ]})
          (instanceOf (UpdateDto testOptions) (VObj {[ "name" := VStr "Updated" ]}))
          (db twoRows)).2).1 = DbOk row ∧
    data env = nullable row ∧ statusCode env = 200 ∧ success env = true.
Proof.
  intros env.
  assert (Hrun :
    (BaseControllerHost.update testRepository MemoryRepository.handleFiles "Test"
       testOptions 1 (VObj {[ "name" := VStr "Updated" ]}) {| url := "/tests/1" |}
       "2025-04-05T10:00:00.000Z" twoRows).1 = Ok env) by (vm_compute; reflexivity).
  split; [exact Hrun |]. split; [reflexivity |]. split; [reflexivity |].
  exact (update_response_is_unprojected_row testRepository
           MemoryRepository.handleFiles "Test" testOptions 1
           (VObj {[ "name" := VStr "Updated" ]}) {| url := "/tests/1" |}
           "2025-04-05T10:00:00.000Z" twoRows env Hrun).
Defined.

(** C10: when the body passes validation, the partial update succeeds and
    the lookup after it answers absent, the update endpoint raises no
    NotFoundException: it returns an envelope with status 200 whose data is
    null. *)
Theorem update_of_absent_row_returns_null
    {Store : Type} (repository : Repository Store)
    (handleFiles : entity → list File → M Store ()) (entityName : string)
    (opts : CrudOptions) (id : Z) updateDto req now (w : world Store)
    (s1 s2 : Store) :
  passesValidation (UpdateDto opts) updateDto →
  repo_update repository (VObj {[ "id" := VNum id ]})
    (instanceOf (UpdateDto opts) updateDto) (db w) = (DbOk (), s1) →
  repo_findOne repository (whereId id) s1 = (DbOk None, s2) →
  let run := BaseControllerHost.update repository handleFiles entityName opts id
               updateDto req now w in
  (∀ msg, run.1 ≠ Throw (NotFoundException msg)) ∧
  run.1 = Ok {| success := true; statusCode := 200;
                message := entityName +:+ " updated successfully";
                timestamp := now; path := Some (url req); data := VNull |}.
Proof.
  intros Hvalid Hupdate Hfetch run. unfold run.
  rewrite (update_validated repository handleFiles entityName opts id updateDto
             req now w Hvalid). cbv zeta.
  rewrite Hupdate. simpl. rewrite Hfetch. simpl. split; [discriminate | reflexivity].
Qed.

Lemma update_of_absent_row_returns_null_witness :
  (∀ msg,
     (BaseControllerHost.update testRepository MemoryRepository.handleFiles "Test"
        testOptions 999 (VObj {[ "name" := VStr "Updated" ]})
        {| url := "/tests/999" |} "2025-04-05T10:00:00.000Z" twoRows).1
     ≠ Throw (NotFoundException msg)) ∧
  (BaseControllerHost.update testRepository MemoryRepository.handleFiles "Test"
     testOptions 999 (VObj {[ "name" := VStr "Updated" ]})
     {| url := "/tests/999" |} "2025-04-05T10:00:00.000Z" twoRows).1
  = Ok {| success := true; statusCode := 200;
          message := "Test" +:+ " updated successfully";
          timestamp := "2025-04-05T10:00:00.000Z";
          path := Some "/tests/999"; data := VNull |}.
Proof.
  apply (update_of_absent_row_returns_null testRepository
           MemoryRepository.handleFiles "Test" testOptions 999
           (VObj {[ "name" := VStr "Updated" ]}) {| url := "/tests/999" |}
           "2025-04-05T10:00:00.000Z" twoRows [row1; row2] [row1; row2]).
  - exact I.
  - vm_compute. reflexivity.
  - vm_compute. reflexivity.
Defined.

(** ** The delete endpoint *)

(** Whatever the repository, when the delete call it makes succeeds the
    delete endpoint answers the same envelope. *)
Lemma delete_response {Store : Type} (repository : Repository Store)
    (entityName : string) (opts : CrudOptions) (id : Z) req now (w : world Store) :
  let soft := default true (softDelete opts) in
  let answer := if soft then repo_softDelete repository id (db w)
                else repo_delete repository id (db w) in
  let c := if soft then CallSoftDelete id else CallDelete id in
  BaseControllerHost.delete repository entityName opts id req now w =
  (match answer.1 with
   | DbOk _ =>
       Ok {| success := true; statusCode := 200;
             message := entityName +:+ " deleted successfully";
             timestamp := now; path := Some (url req);
             data := VObj {[ "deleted" := VBool true; "id" := VNum id ]} |}
   | DbError reason => Throw (DataAccessError reason)
   end,
   {| db := answer.2; trace := trace w ++ [c] |}).
Proof.
  cbv zeta. unfold BaseControllerHost.delete, BaseService.delete.
  destruct (default true (softDelete opts)); unfold bind, await, lift.
  - by destruct (repo_softDelete repository id (db w)) as [[[] | reason] s'].
  - by destruct (repo_delete repository id (db w)) as [[[] | reason] s'].
Qed.

Lemma visible_after_softDelete (stamp : string) (id : Z) (rows : list entity) :
  MemoryRepository.visible (MemoryRepository.byId id)
    (MemoryRepository.softDelete stamp id rows).2 = [].
Proof.
  unfold MemoryRepository.visible, MemoryRepository.softDelete. cbn [snd].
  induction rows as [|row rows IH]; [reflexivity |].
  cbn [map]. rewrite filter_cons_False; [exact IH |].
  destruct (MemoryRepository.matches (MemoryRepository.byId id) row) eqn:Hm;
    cbv beta iota.
  - unfold MemoryRepository.live. rewrite lookup_insert_eq. simpl. discriminate.
  - rewrite Hm, andb_false_r. discriminate.
Qed.

Lemma visible_after_delete (id : Z) (rows : list entity) :
  MemoryRepository.visible (MemoryRepository.byId id)
    (MemoryRepository.delete id rows).2 = [].
Proof.
  unfold MemoryRepository.visible, MemoryRepository.delete. cbn [snd].
  induction rows as [|row rows IH]; [reflexivity |].
  destruct (MemoryRepository.matches (MemoryRepository.byId id) row) eqn:Hm.
  - rewrite filter_cons_False; [exact IH | by rewrite Hm].
  - rewrite filter_cons_True by done.
    rewrite filter_cons_False; [exact IH |]. rewrite Hm, andb_false_r. discriminate.
Qed.

(** In the in-memory repository a row deleted by identifier, softly or
    physically, is absent for the plain lookup by that identifier. *)
Lemma memory_lookup_after_delete (name stamp : string) (soft : bool) (id : Z)
    (rows : list entity) :
  let repository := MemoryRepository.repository name stamp in
  let after := if soft then (repo_softDelete repository id rows).2
               else (repo_delete repository id rows).2 in
  repo_findOne repository (whereId id) after = (DbOk None, after).
Proof.
  cbv zeta.
  cbn [repo_findOne repo_softDelete repo_delete MemoryRepository.repository].
  unfold MemoryRepository.findOne, whereId. cbn [fo_where].
  fold (MemoryRepository.byId id).
  destruct soft.
  - by rewrite visible_after_softDelete.
  - by rewrite visible_after_delete.
Qed.

(** C7, over the in-memory repository: for every identifier and every store
    (the row live, already deleted or absent) the delete endpoint returns the
    envelope with status 200 and data [{deleted: true, id}], the same in all
    cases; deleting the same identifier a second time returns it again; and
    after the first and after the second deletion the plain find-by-id of the
    detail endpoint fails with a NotFoundException (HTTP 404).  This holds
    with soft delete enabled (also by default) and with physical deletion. *)
Theorem delete_is_idempotent_and_hides_the_row
    (name stamp entityName : string) (opts : CrudOptions) (id : Z)
    (req findReq : Request) (now : string) (w : world (list entity)) :
  let repository := MemoryRepository.repository name stamp in
  let deleted := {| success := true; statusCode := 200;
                    message := entityName +:+ " deleted successfully";
                    timestamp := now; path := Some (url req);
                    data := VObj {[ "deleted" := VBool true; "id" := VNum id ]} |} in
  let first := BaseControllerHost.delete repository entityName opts id req now w in
  let second := BaseControllerHost.delete repository entityName opts id req now
                  first.2 in
  let findAfter (w' : world (list entity)) :=
    (BaseControllerHost.findOne repository entityName opts id findReq None now w').1 in
  first.1 = Ok deleted ∧
  second.1 = Ok deleted ∧
  findAfter first.2 = Throw (NotFoundException (name +:+ " not found")) ∧
  findAfter second.2 = Throw (NotFoundException (name +:+ " not found")) ∧
  getStatus (NotFoundException (name +:+ " not found")) = 404.
Proof.
  cbv zeta.
  assert (Hfind : ∀ w' : world (list entity),
    repo_findOne (MemoryRepository.repository name stamp) (whereId id) (db w')
    = (DbOk None, db w') →
    (BaseControllerHost.findOne (MemoryRepository.repository name stamp)
       entityName opts id findReq None now w').1
    = Throw (NotFoundException (name +:+ " not found"))).
  { intros w' Hlookup.
    rewrite (findOne_accepted (MemoryRepository.repository name stamp)
               entityName opts id findReq None now w' eq_refl).
    cbv zeta. unfold findOneOptions, applyIncludes. by rewrite Hlookup. }
  rewrite !delete_response. cbv zeta.
  destruct (default true (softDelete opts)) eqn:Hsoft.
  - repeat split; try reflexivity.
    + apply Hfind. cbn [db snd].
      exact (memory_lookup_after_delete name stamp true id (db w)).
    + apply Hfind. cbn [db snd].
      exact (memory_lookup_after_delete name stamp true id
               (MemoryRepository.softDelete stamp id (db w)).2).
  - repeat split; try reflexivity.
    + apply Hfind. cbn [db snd].
      exact (memory_lookup_after_delete name stamp false id (db w)).
    + apply Hfind. cbn [db snd].
      exact (memory_lookup_after_delete name stamp false id
               (MemoryRepository.delete id (db w)).2).
Qed.

(** The scenario of the specification on the two sample rows: delete row 1
    twice, then look it up. *)
Example delete_twice_then_find :
  let first := BaseControllerHost.delete testRepository "Test" testOptions 1
                 {| url := "/tests/1" |} "2025-04-05T10:00:00.000Z" twoRows in
  let second := BaseControllerHost.delete testRepository "Test" testOptions 1
                  {| url := "/tests/1" |} "2025-04-05T10:00:00.000Z" first.2 in
  first.1 = second.1 ∧
  trace second.2 = [CallSoftDelete 1; CallSoftDelete 1] ∧
  length (db second.2) = 2%nat ∧
  (BaseControllerHost.findOne testRepository "Test" testOptions 1
     {| url := "/tests/1" |} None "2025-04-05T10:00:00.000Z" second.2).1
  = Throw (NotFoundException "TestEntity not found").
Proof. vm_compute. repeat split; reflexivity. Qed.

(** ** Scenarios of the specification on the sample store *)

(** [GET /tests?page=1&limit=1] against two rows: one projected row, total
    2, two pages. *)
Example findAll_page_one_limit_one :
  ∃ env,
    (BaseControllerHost.findAll testRepository "Test" testOptions pageOneLimitOne
       {| url := "/tests?page=1&limit=1" |} "2025-04-05T10:00:00.000Z" twoRows).1
    = Ok env ∧
    statusCode env = 200 ∧
    opt_get (data env) "data"
    = VArr [VObj {[ "id" := VNum 1; "name" := VStr "Item 1";
                    "description" := VStr "Desc 1" ]}] ∧
    opt_get (opt_get (data env) "meta") "total" = VNum 2 ∧
    opt_get (opt_get (data env) "meta") "totalPages" = VNum 2.
Proof. eexists. vm_compute. repeat split; reflexivity. Qed.

(** [POST /tests {name: "A"}] then [GET /tests/3]: status 201, then the
    created values on the exposed fields and no other field. *)
Example create_then_findOne :
  let created := BaseControllerHost.create testRepository
                   MemoryRepository.handleFiles "Test" testOptions
                   (VObj {[ "name" := VStr "A"; "deletedAt" := VNull ]})
                   {| url := "/tests" |} None "2025-04-05T10:00:00.000Z" twoRows in
  let found := BaseControllerHost.findOne testRepository "Test" testOptions 3
                 {| url := "/tests/3" |} None "2025-04-05T10:00:00.000Z"
                 created.2 in
  ∃ env env',
    created.1 = Ok env ∧ statusCode env = 201 ∧
    opt_get (data env) "name" = VStr "A" ∧
    found.1 = Ok env' ∧ statusCode env' = 200 ∧
    data env' = VObj {[ "id" := VNum 3; "name" := VStr "A" ]}.
Proof. eexists _, _. vm_compute. repeat split; reflexivity. Qed.

(** * Further properties of the code *)

(** ** Splitting and joining *)

Lemma split_not_nil (sep : ascii) (s : string) : split sep s ≠ [].
Proof.
  destruct s as [|c s]; simpl; [done |].
  destruct (Ascii.eqb c sep); [done |]. by destruct (split sep s).
Qed.

Lemma split_tokens_free (sep : ascii) (s t : string) :
  t ∈ split sep s → free_of sep t = true.
Proof.
  revert t. induction s as [|c s IH]; intros t; simpl.
  - by intros ->%list_elem_of_singleton.
  - destruct (Ascii.eqb c sep) eqn:Hc.
    + intros [-> | Ht]%elem_of_cons; [done | by apply IH].
    + destruct (split sep s) as [|hd tl] eqn:Hs.
      * intros ->%list_elem_of_singleton. simpl. by rewrite Hc.
      * intros [-> | Ht]%elem_of_cons.
        -- simpl. rewrite Hc. simpl. apply IH. by left.
        -- apply IH. by right.
Qed.

Lemma split_join (sep : ascii) (l : list string) :
  l ≠ [] → Forall (λ t, free_of sep t = true) l →
  split sep (join (String sep "") l) = l.
Proof.
  induction l as [|x l IH]; [done |]. intros _ Hfree.
  apply Forall_cons in Hfree as [Hx Hl].
  destruct l as [|y l].
  - simpl. by apply split_free.
  - change (join (String sep "") (x :: y :: l))
      with (x +:+ String sep "" +:+ join (String sep "") (y :: l)).
    change (String sep "" +:+ join (String sep "") (y :: l))
      with (String sep (join (String sep "") (y :: l))).
    rewrite (split_append _ _ _ Hx). by rewrite IH.
Qed.

Lemma filter_all {A} (P : A → Prop) `{∀ x, Decision (P x)} (l : list A) :
  Forall P l → filter P l = l.
Proof.
  induction 1 as [|x l Hx _ IH]; [done |]. by rewrite filter_cons_True, IH.
Qed.

(** ** Sorting *)

(** X1: on a sort parameter "field:direction" (neither part holding a
    colon; the field may be empty) the order directive has the single key
    [field], descending exactly when the direction is the string "desc"; on a
    non-empty parameter without colon it is ascending on the whole
    parameter. *)
Theorem parseSort_descending_iff_exactly_desc (field direction : string) :
  free_of ":" field = true → free_of ":" direction = true →
  (∃ d, parseSort (Some (field +:+ ":" +:+ direction)) = {[ field := d ]} ∧
        (d = DESC ↔ direction = "desc")) ∧
  (field ≠ "" → parseSort (Some field) = {[ field := ASC ]}).
Proof.
  intros Hf Hd. split.
  - rewrite (parseSort_field_direction _ _ Hf Hd).
    eexists. split; [reflexivity |].
    destruct (decide (direction = "desc")); split; done.
  - intros Hne. by apply parseSort_field_only.
Qed.

Lemma parseSort_descending_iff_exactly_desc_witness :
  (∃ d, parseSort (Some ("created_at" +:+ ":" +:+ "desc")) = {[ "created_at" := d ]} ∧
        (d = DESC ↔ "desc" = "desc")) ∧
  ("created_at" ≠ "" → parseSort (Some "created_at") = {[ "created_at" := ASC ]}).
Proof.
  apply (parseSort_descending_iff_exactly_desc "created_at" "desc");
    reflexivity.
Defined.

(** X2: whatever follows a second colon is ignored: "field:direction:rest"
    is parsed as "field:direction". *)
Theorem parseSort_ignores_further_segments (field direction rest : string) :
  free_of ":" field = true → free_of ":" direction = true →
  parseSort (Some (field +:+ ":" +:+ direction +:+ ":" +:+ rest)) =
  parseSort (Some (field +:+ ":" +:+ direction)).
Proof.
  intros Hf Hd. rewrite (parseSort_field_direction _ _ Hf Hd).
  unfold parseSort.
  change (":" +:+ direction +:+ ":" +:+ rest)
    with (String ":" (direction +:+ String ":" rest)).
  rewrite (split_append _ _ _ Hf), (split_append _ _ _ Hd).
  cbn [lookup list_lookup default from_option id].
  destruct field as [|c field].
  - rewrite append_nil_l. simpl. f_equal.
    destruct (decide (Some direction = Some "desc")) as [[= ->] | Hne];
      [done | by rewrite decide_False by congruence].
  - rewrite append_cons. simpl. f_equal.
    destruct (decide (Some direction = Some "desc")) as [[= ->] | Hne];
      [done | by rewrite decide_False by congruence].
Qed.

Lemma parseSort_ignores_further_segments_witness :
  parseSort (Some ("name" +:+ ":" +:+ "desc" +:+ ":" +:+ "nulls:last")) =
  parseSort (Some ("name" +:+ ":" +:+ "desc")).
Proof.
  apply (parseSort_ignores_further_segments "name" "desc" "nulls:last");
    reflexivity.
Defined.

(** X3: the order directive never names more than one field, and it is
    empty exactly when the sort parameter is absent or the empty string. *)
Theorem parseSort_at_most_one_field (sort : option string) :
  (size (parseSort sort) ≤ 1)%nat ∧
  (parseSort sort = ∅ ↔ sort = None ∨ sort = Some "").
Proof.
  destruct sort as [[|c s]|].
  - split; [simpl; rewrite map_size_empty; lia | by split; [right |]].
  - unfold parseSort. rewrite map_size_singleton. split; [lia |].
    split; [intros H; by apply map_non_empty_singleton in H | by intros [|]].
  - split; [simpl; rewrite map_size_empty; lia | by split; [left |]].
Qed.

(** ** The include parameter *)

(** X4: the include transform yields no empty token and no token that holds
    a comma. *)
Theorem includeTransform_tokens_clean (v : value) (t : string) :
  t ∈ includeTransform v → t ≠ "" ∧ free_of "," t = true.
Proof.
  destruct v; simpl; try by intros ?%elem_of_nil.
  intros [Hne Ht]%list_elem_of_filter. split; [done |].
  by eapply split_tokens_free.
Qed.

Lemma includeTransform_tokens_clean_witness :
  "posts" ≠ "" ∧ free_of "," "posts" = true.
Proof.
  apply (includeTransform_tokens_clean (VStr "profile,,posts,") "posts").
  apply list_elem_of_In. vm_compute. tauto.
Defined.

(** X5: round trip: a list of non-empty, comma-free relation names joined
    with commas is transformed back into that list. *)
Theorem includeTransform_join (l : list string) :
  Forall (λ t, t ≠ "" ∧ free_of "," t = true) l →
  includeTransform (VStr (join "," l)) = l.
Proof.
  intros Hl. unfold includeTransform.
  destruct l as [|x l]; [reflexivity |].
  rewrite split_join; [| done | by eapply Forall_impl; [exact Hl | intros ? []]].
  apply filter_all. eapply Forall_impl; [exact Hl | by intros ? []].
Qed.

Lemma includeTransform_join_witness :
  includeTransform (VStr (join "," ["profile"; "posts"])) = ["profile"; "posts"].
Proof.
  apply (includeTransform_join ["profile"; "posts"]).
  repeat constructor; discriminate.
Defined.

(** ** Relation inclusion *)

(** X6: [applyIncludes] touches the relations only, and it replaces them: with
    a non-empty include list the directive holds exactly the listed names,
    whatever relations the options carried before; with an empty or absent
    list the relations of the options stay. *)
Theorem applyIncludes_replaces_relations (opts : FindOptions)
    (include : option (list string)) :
  let result := applyIncludes opts include in
  fo_where result = fo_where opts ∧ fo_order result = fo_order opts ∧
  fo_skip result = fo_skip opts ∧ fo_take result = fo_take opts ∧
  (default [] include = [] → fo_relations result = fo_relations opts) ∧
  (default [] include ≠ [] →
   ∃ relations,
     fo_relations result = Some relations ∧
     ∀ r, relations !! r = (if decide (r ∈ default [] include) then Some true else None)).
Proof.
  cbv zeta. destruct include as [[|x l]|]; try (by repeat split).
  do 4 (split; [reflexivity |]). split; [done |].
  intros _. eexists. split; [reflexivity |].
  intros r. rewrite relations_fold_lookup, lookup_empty.
  change (default [] (Some (x :: l))) with (x :: l).
  by destruct (decide (r ∈ x :: l)).
Qed.

Lemma applyIncludes_replaces_relations_witness :
  ∃ relations,
    fo_relations
      (applyIncludes
         {| fo_where := None; fo_order := None;
            fo_relations := Some {[ "comments" := true ]};
            fo_skip := None; fo_take := None |}
         (Some ["profile"])) = Some relations ∧
    ∀ r, relations !! r
         = (if decide (r ∈ default [] (Some ["profile"])) then Some true else None).
Proof.
  apply (applyIncludes_replaces_relations
           {| fo_where := None; fo_order := None;
              fo_relations := Some {[ "comments" := true ]};
              fo_skip := None; fo_take := None |} (Some ["profile"])).
  discriminate.
Defined.

(** X7: applied twice, the last non-empty include list wins, and applying
    the same list again changes nothing. *)
Theorem applyIncludes_last_wins (opts : FindOptions)
    (first : option (list string)) (second : list string) :
  (second ≠ [] →
   applyIncludes (applyIncludes opts first) (Some second)
   = applyIncludes opts (Some second)) ∧
  applyIncludes (applyIncludes opts first) first = applyIncludes opts first.
Proof.
  split.
  - destruct second as [|x l]; [done |]. intros _.
    by destruct first as [[|? ?]|].
  - by destruct first as [[|? ?]|].
Qed.

Lemma applyIncludes_last_wins_witness :
  applyIncludes (applyIncludes noOptions (Some ["posts"])) (Some ["profile"])
  = applyIncludes noOptions (Some ["profile"]).
Proof.
  apply (applyIncludes_last_wins noOptions (Some ["posts"]) ["profile"]).
  discriminate.
Defined.

(** ** The allow-list check *)

Lemma invalidRelations_unconfigured (include : list string) :
  invalidRelations None include = include.
Proof. unfold invalidRelations. apply filter_all. by apply Forall_forall. Qed.

Lemma includesAllowed_spec allowed include :
  includesAllowed allowed include ↔
  ∀ r, r ∈ default [] include → includes allowed r = true.
Proof.
  unfold includesAllowed. split.
  - intros Hnil r Hr. destruct (includes allowed r) eqn:Ha; [done |].
    assert (r ∈ invalidRelations allowed (default [] include))
      by by apply invalidRelations_spec.
    rewrite Hnil in *. by apply elem_of_nil in H.
  - intros Hall.
    destruct (invalidRelations allowed (default [] include)) as [|r rest] eqn:Hinv;
      [done |].
    assert (Hr : r ∈ invalidRelations allowed (default [] include))
      by (rewrite Hinv; left).
    apply invalidRelations_spec in Hr as [Hr Ha].
    rewrite (Hall r Hr) in Ha. discriminate.
Qed.

Lemma findOne_calls_accepted {Store : Type} (repository : Repository Store)
    entityName opts id req include now w :
  includesAllowed (allowedRelationsFindOne opts) include →
  calls_made (BaseControllerHost.findOne repository entityName opts id req
                include now) w = [CallFindOne (findOneOptions id include)].
Proof.
  intros Hok. unfold calls_made.
  rewrite (findOne_accepted repository entityName opts id req include now w Hok).
  cbv zeta.
  destruct (repo_findOne _ _ _).1 as [[e|] | reason]; simpl;
    by rewrite drop_app_length.
Qed.

Lemma findOne_rejected_when_not_allowed {Store : Type}
    (repository : Repository Store) entityName opts id req include now w :
  ¬ includesAllowed (allowedRelationsFindOne opts) include →
  ∃ msg,
    BaseControllerHost.findOne repository entityName opts id req include now w
    = (Throw (BadRequestException (inl msg)), w).
Proof.
  unfold includesAllowed. intros Hbad.
  destruct include as [include|]; [| by destruct Hbad]. simpl in Hbad.
  destruct (invalidRelations (allowedRelationsFindOne opts) include)
    as [|r rest] eqn:Hinv; [done |].
  assert (Hr : r ∈ invalidRelations (allowedRelationsFindOne opts) include)
    by (rewrite Hinv; left).
  apply invalidRelations_spec in Hr as [Hr Ha].
  eexists. exact (findOne_rejected repository entityName opts id req now w
                    include r Hr Ha).
Qed.

Lemma findAll_rejected_when_not_allowed {Store : Type}
    (repository : Repository Store) entityName opts paginationDto req now w :
  ¬ includesAllowed (allowedRelationsFindAll opts) (q_include paginationDto) →
  ∃ msg,
    BaseControllerHost.findAll repository entityName opts paginationDto req now w
    = (Throw (BadRequestException (inl msg)), w).
Proof.
  unfold includesAllowed. intros Hbad.
  destruct (q_include paginationDto) as [include|] eqn:Hinc; [| by destruct Hbad].
  simpl in Hbad.
  destruct (invalidRelations (allowedRelationsFindAll opts) include)
    as [|r rest] eqn:Hinv; [done |].
  assert (Hr : r ∈ invalidRelations (allowedRelationsFindAll opts) include)
    by (rewrite Hinv; left).
  apply invalidRelations_spec in Hr as [Hr Ha].
  eexists. exact (findAll_rejected repository entityName opts paginationDto req
                    now w include r Hinc Hr Ha).
Qed.

(** X8: when no allow-list is configured for the operation, every non-empty
    include list is rejected, on the detail and on the list endpoint, with a
    BadRequestException that lists all its names and reads "Allowed:
    undefined"; no data-access call is made. *)
Theorem include_rejected_when_allow_list_unconfigured
    {Store : Type} (repository : Repository Store) (entityName : string)
    (opts : CrudOptions) (r : string) (rs : list string) :
  let msg := "Invalid relations: " +:+ join ", " (r :: rs) +:+
             ". Allowed: undefined" in
  (allowedRelationsFindOne opts = None →
   ∀ id req now w,
     BaseControllerHost.findOne repository entityName opts id req
       (Some (r :: rs)) now w
     = (Throw (BadRequestException (inl msg)), w)) ∧
  (allowedRelationsFindAll opts = None →
   ∀ paginationDto req now w,
     q_include paginationDto = Some (r :: rs) →
     BaseControllerHost.findAll repository entityName opts paginationDto req now w
     = (Throw (BadRequestException (inl msg)), w)).
Proof.
  cbv zeta. split.
  - intros Hnone id req now w.
    rewrite (findOne_rejected repository entityName opts id req now w (r :: rs) r);
      [| by left | by rewrite Hnone].
    by rewrite Hnone, invalidRelations_unconfigured.
  - intros Hnone paginationDto req now w Hinc.
    rewrite (findAll_rejected repository entityName opts paginationDto req now w
               (r :: rs) r Hinc); [| by left | by rewrite Hnone].
    by rewrite Hnone, invalidRelations_unconfigured.
Qed.

Lemma include_rejected_when_allow_list_unconfigured_witness :
  BaseControllerHost.findOne testRepository "Test" bareOptions 1
    {| url := "/tests/1?include=profile" |} (Some ["profile"; "posts"])
    "2025-04-05T10:00:00.000Z" twoRows
  = (Throw (BadRequestException
              (inl ("Invalid relations: " +:+ join ", " ["profile"; "posts"] +:+
                    ". Allowed: undefined"))), twoRows) ∧
  BaseControllerHost.findAll testRepository "Test" bareOptions badIncludeQuery
    {| url := "/tests?include=badRelation" |} "2025-04-05T10:00:00.000Z" twoRows
  = (Throw (BadRequestException
              (inl ("Invalid relations: " +:+ join ", " ["badRelation"] +:+
                    ". Allowed: undefined"))), twoRows).
Proof.
  split.
  - apply (proj1 (include_rejected_when_allow_list_unconfigured testRepository
                    "Test" bareOptions "profile" ["posts"])).
    reflexivity.
  - apply (proj2 (include_rejected_when_allow_list_unconfigured testRepository
                    "Test" bareOptions "badRelation" [])); reflexivity.
Defined.

(** X9: the handlers of the detail and of the list endpoint, which run on
    the parameters the framework's pipes have bound (the identifier that
    ParseIntPipe has parsed to an integer, the query), raise a
    BadRequestException only when some included name is outside the
    allow-list: in the handlers, a request whose include list is absent,
    empty or wholly allowed is never rejected.  (A pipe may reject a request
    before the handler runs; that is outside this statement.) *)
Theorem bad_request_only_for_disallowed_include
    {Store : Type} (repository : Repository Store) (entityName : string)
    (opts : CrudOptions) :
  (∀ id req include now w response,
     (BaseControllerHost.findOne repository entityName opts id req include now w).1
     = Throw (BadRequestException response) →
     ∃ r, r ∈ default [] include ∧ includes (allowedRelationsFindOne opts) r = false) ∧
  (∀ paginationDto req now w response,
     (BaseControllerHost.findAll repository entityName opts paginationDto req now w).1
     = Throw (BadRequestException response) →
     ∃ r, r ∈ default [] (q_include paginationDto) ∧
          includes (allowedRelationsFindAll opts) r = false).
Proof.
  assert (Hfind : ∀ allowed include,
    ¬ includesAllowed allowed include →
    ∃ r, r ∈ default [] include ∧ includes allowed r = false).
  { unfold includesAllowed. intros allowed include Hbad.
    destruct (invalidRelations allowed (default [] include)) as [|r rest] eqn:Hinv;
      [done |].
    exists r. apply invalidRelations_spec. rewrite Hinv. left. }
  split.
  - intros id req include now w response Hrun.
    destruct (includesAllowed_dec (allowedRelationsFindOne opts) include)
      as [Hok | Hbad]; [| by apply Hfind].
    rewrite (findOne_accepted repository entityName opts id req include now w Hok)
      in Hrun. cbv zeta in Hrun.
    destruct (repo_findOne _ _ _).1 as [[e|] | reason]; simpl in Hrun; try done.
    destruct (successResponse_single_ok (VObj e)
                (entityName +:+ " retrieved successfully") 200 (Some (url req))
                (ResponseDto opts) (serializationGroups opts) now)
      as (env & Henv & _). by rewrite Henv in Hrun.
  - intros paginationDto req now w response Hrun.
    destruct (includesAllowed_dec (allowedRelationsFindAll opts)
                (q_include paginationDto)) as [Hok | Hbad]; [| by apply Hfind].
    rewrite (findAll_accepted repository entityName opts paginationDto req now w Hok)
      in Hrun. cbv zeta in Hrun.
    destruct (repo_findAndCount _ _ _).1 as [found | reason]; simpl in Hrun;
      try done.
    match type of Hrun with
    | (successResponse ?d ?m ?c ?p ?s false ?g ?n) = _ =>
        destruct (successResponse_single_ok d m c p s g n) as (env & Henv & _)
    end.
    by rewrite Henv in Hrun.
Qed.

Lemma bad_request_only_for_disallowed_include_witness :
  ∃ r, r ∈ default [] (Some ["profile"; "badRelation"]) ∧
       includes (allowedRelationsFindOne testOptions) r = false.
Proof.
  apply (proj1 (bad_request_only_for_disallowed_include testRepository "Test"
                  testOptions) 1 {| url := "/tests/1" |}
           (Some ["profile"; "badRelation"]) "2025-04-05T10:00:00.000Z" twoRows
           (inl (invalidRelationsMessage ["badRelation"] (Some ["profile"])))).
  reflexivity.
Defined.

(** X10: no data-access call of the detail or of the list endpoint fetches a
    relation outside the allow-list of the operation: every call is the
    lookup (or the findAndCount) whose relations, if any, are all on the
    allow-list. *)
Theorem fetched_relations_are_allowed
    {Store : Type} (repository : Repository Store) (entityName : string)
    (opts : CrudOptions) :
  (∀ id req include now w,
     Forall (λ c, ∃ options,
               c = CallFindOne options ∧
               ∀ relations r,
                 fo_relations options = Some relations →
                 is_Some (relations !! r) →
                 includes (allowedRelationsFindOne opts) r = true)
            (calls_made (BaseControllerHost.findOne repository entityName opts id
                           req include now) w)) ∧
  (∀ paginationDto req now w,
     Forall (λ c, ∃ options,
               c = CallFindAndCount options ∧
               ∀ relations r,
                 fo_relations options = Some relations →
                 is_Some (relations !! r) →
                 includes (allowedRelationsFindAll opts) r = true)
            (calls_made (BaseControllerHost.findAll repository entityName opts
                           paginationDto req now) w)).
Proof.
  assert (Hrel : ∀ allowed include base relations r,
    includesAllowed allowed include →
    fo_relations base = None →
    fo_relations (applyIncludes base include) = Some relations →
    is_Some (relations !! r) → includes allowed r = true).
  { intros allowed include base relations r Hok Hbase Hsome Hr.
    apply (proj1 (includesAllowed_spec allowed include) Hok).
    destruct include as [[|x l]|];
      unfold applyIncludes in Hsome; cbn [fo_relations] in Hsome;
      try congruence.
    injection Hsome as <-.
    rewrite relations_fold_lookup in Hr. change (r ∈ x :: l).
    destruct (decide (r ∈ l)); [by right |].
    destruct (decide (r = x)) as [-> | Hne]; [by left |].
    rewrite lookup_insert_ne, lookup_empty in Hr by done. by destruct Hr. }
  split.
  - intros id req include now w.
    destruct (includesAllowed_dec (allowedRelationsFindOne opts) include)
      as [Hok | Hbad].
    + rewrite (findOne_calls_accepted _ _ _ _ _ _ _ _ Hok).
      constructor; [| constructor]. eexists. split; [reflexivity |].
      intros relations r. by apply Hrel.
    + destruct (findOne_rejected_when_not_allowed repository entityName opts id
                  req include now w Hbad) as [msg Hrun].
      rewrite (calls_made_unchanged _ _ _ Hrun). constructor.
  - intros paginationDto req now w.
    destruct (includesAllowed_dec (allowedRelationsFindAll opts)
                (q_include paginationDto)) as [Hok | Hbad].
    + rewrite (findAll_calls_accepted _ _ _ _ _ _ _ Hok).
      constructor; [| constructor]. eexists. split; [reflexivity |].
      intros relations r. cbn [pageQuery fo_relations]. unfold findAllOptions.
      by apply Hrel.
    + rewrite (findAll_calls_rejected _ _ _ _ _ _ _ Hbad). constructor.
Qed.

Lemma fetched_relations_are_allowed_witness :
  includes (allowedRelationsFindOne testOptions) "profile" = true.
Proof.
  pose proof (proj1 (fetched_relations_are_allowed testRepository "Test"
                       testOptions) 1 {| url := "/tests/1?include=profile" |}
                (Some ["profile"]) "2025-04-05T10:00:00.000Z" twoRows) as Hcalls.
  rewrite (findOne_calls_accepted testRepository "Test" testOptions 1
             {| url := "/tests/1?include=profile" |} (Some ["profile"])
             "2025-04-05T10:00:00.000Z" twoRows eq_refl) in Hcalls.
  apply Forall_cons in Hcalls as [(options & Hcall & Hrelations) _].
  injection Hcall as <-.
  apply (Hrelations {[ "profile" := true ]} "profile"); [reflexivity |].
  exists true. reflexivity.
Defined.

(** X11: an include value that is not a string (a repeated query parameter
    arrives as an array) is transformed into the empty list, and the detail
    endpoint then behaves as without include parameter: nothing is included
    and nothing is checked against the allow-list. *)
Theorem non_string_include_is_dropped
    {Store : Type} (repository : Repository Store) (entityName : string)
    (opts : CrudOptions) (v : value) :
  (∀ s, v ≠ VStr s) →
  includeTransform v = [] ∧
  ∀ id req now w,
    BaseControllerHost.findOne repository entityName opts id req
      (Some (includeTransform v)) now w
    = BaseControllerHost.findOne repository entityName opts id req None now w.
Proof.
  intros Hv.
  assert (Hnil : includeTransform v = [])
    by (apply includeTransform_empty; by right).
  split; [done |]. intros id req now w. by rewrite Hnil.
Qed.

Lemma non_string_include_is_dropped_witness :
  includeTransform (VArr [VStr "badRelation"; VStr "profile"]) = [] ∧
  ∀ id req now w,
    BaseControllerHost.findOne testRepository "Test" testOptions id req
      (Some (includeTransform (VArr [VStr "badRelation"; VStr "profile"]))) now w
    = BaseControllerHost.findOne testRepository "Test" testOptions id req None now w.
Proof.
  apply (non_string_include_is_dropped testRepository "Test" testOptions
           (VArr [VStr "badRelation"; VStr "profile"])).
  discriminate.
Defined.

(** ** The list response *)

Lemma serialize_paginated_value (p : Paginated) shape groups :
  ∃ items,
    serialize (paginated_value p) shape false groups
    = Ok (VObj {[ "data" := VArr items;
                  "meta" := VObj {[ "total" := VNum (total (meta p));
                                    "page" := VNum (page (meta p));
                                    "limit" := VNum (limit (meta p));
                                    "totalPages" := VNum (totalPages (meta p)) ]} ]}) ∧
    length items = length (pg_data p) ∧
    items = match shape with
            | Some dto => map (λ item, plainToInstance dto item groups)
                              (VObj <$> pg_data p)
            | None => VObj <$> pg_data p
            end.
Proof.
  unfold serialize, paginated_value. destruct shape as [dto|].
  - cbn [opt_get]. rewrite lookup_insert_eq. cbn [default from_option id truthy
      Array_isArray andb arr_items spread].
    eexists. split; [by rewrite insert_insert_eq |].
    split; [by rewrite length_map, length_fmap | reflexivity].
  - eexists. split; [reflexivity |]. split; [by rewrite length_fmap | reflexivity].
Qed.

(** X12: on a request whose limit is not 0, whenever the list endpoint
    succeeds, its envelope has status 200, the [meta] of its data is the one
    [paginate] built (never projected) and reports the effective limit
    [min(limit, 100)], not the requested one; its [data] holds one item per
    row the repository returned, projected with the response shape when one
    is configured and as it is otherwise.  (On a limit of 0 the code divides
    by zero, which the integers do not represent.) *)
Theorem findAll_response_shape
    {Store : Type} (repository : Repository Store) (entityName : string)
    (opts : CrudOptions) paginationDto req now (w : world Store) env :
  q_limit paginationDto ≠ Some 0 →
  (BaseControllerHost.findAll repository entityName opts paginationDto req now w).1
  = Ok env →
  let page_ := default 1 (q_page paginationDto) in
  let limit_ := Z.min (default 10 (q_limit paginationDto)) 100 in
  ∃ rows count items,
    (repo_findAndCount repository
       (pageQuery (findAllOptions paginationDto) page_ limit_) (db w)).1
    = DbOk (rows, count) ∧
    statusCode env = 200 ∧
    opt_get (data env) "meta"
    = VObj {[ "total" := VNum (Z.of_N count); "page" := VNum page_;
              "limit" := VNum limit_;
              "totalPages" := VNum (Math_ceil_div (Z.of_N count) limit_) ]} ∧
    opt_get (data env) "data" = VArr items ∧
    length items = length rows ∧
    items = match ResponseDto opts with
            | Some dto => map (λ item, plainToInstance dto item
                                         (serializationGroups opts))
                              (VObj <$> rows)
            | None => VObj <$> rows
            end ∧
    limit_ ≠ 0.
Proof.
  intros Hlimit Hrun. cbv zeta.
  assert (Hnonzero : Z.min (default 10 (q_limit paginationDto)) 100 ≠ 0).
  { destruct (q_limit paginationDto) as [l|]; simpl; [| lia].
    assert (l ≠ 0) by congruence. lia. }
  destruct (includesAllowed_dec (allowedRelationsFindAll opts)
              (q_include paginationDto)) as [Hok | Hbad].
  - rewrite (findAll_accepted repository entityName opts paginationDto req now w Hok)
      in Hrun. cbv zeta in Hrun.
    destruct (repo_findAndCount _ _ _).1 as [[rows count] | reason];
      simpl in Hrun; [| done].
    unfold successResponse in Hrun.
    match type of Hrun with
    | context [serialize (paginated_value ?p) ?s false ?g] =>
        destruct (serialize_paginated_value p s g) as (items & Hser & Hlen & Hitems)
    end.
    rewrite Hser in Hrun. injection Hrun as <-. simpl in Hlen, Hitems.
    exists rows, count, items. split; [done |]. split; [done |].
    cbn [data opt_get]. rewrite lookup_insert_ne by done.
    rewrite lookup_singleton_eq, lookup_insert_eq. done.
  - destruct (findAll_rejected_when_not_allowed repository entityName opts
                paginationDto req now w Hbad) as [msg Hbadrun].
    by rewrite Hbadrun in Hrun.
Qed.

Lemma findAll_response_shape_witness :
  ∃ env rows count items,
    (BaseControllerHost.findAll testRepository "Test" testOptions largeLimitQuery
       {| url := "/tests?limit=5000" |} "2025-04-05T10:00:00.000Z" twoRows).1
    = Ok env ∧
    (repo_findAndCount testRepository
       (pageQuery (findAllOptions largeLimitQuery) 2 100) (db twoRows)).1
    = DbOk (rows, count) ∧
    statusCode env = 200 ∧
    opt_get (data env) "meta"
    = VObj {[ "total" := VNum (Z.of_N count); "page" := VNum 2;
              "limit" := VNum 100;
              "totalPages" := VNum (Math_ceil_div (Z.of_N count) 100) ]} ∧
    opt_get (data env) "data" = VArr items ∧
    length items = length rows.
Proof.
  assert (Hrun : ∃ env,
    (BaseControllerHost.findAll testRepository "Test" testOptions largeLimitQuery
       {| url := "/tests?limit=5000" |} "2025-04-05T10:00:00.000Z" twoRows).1
    = Ok env) by (eexists; vm_compute; reflexivity).
  destruct Hrun as [env Hrun]. exists env.
  destruct (findAll_response_shape testRepository "Test" testOptions
              largeLimitQuery {| url := "/tests?limit=5000" |}
              "2025-04-05T10:00:00.000Z" twoRows env ltac:(discriminate) Hrun)
    as (rows & count & items & H1 & H2 & H3 & H4 & H5 & _).
  exists rows, count, items. repeat split; assumption.
Defined.

(** X13: for [page ≥ 1] and [limit ≥ 1], the requested page lies within
    [totalPages] exactly when its offset is below the total: a page beyond
    the last one starts at or after the end of the rows. *)
Theorem paginate_page_in_range_iff_offset_below_total
    {Store : Type} (repository : Repository Store) (options : FindOptions)
    (page_ limit_ : Z) (w : world Store) rows count s' :
  1 ≤ page_ → 1 ≤ limit_ →
  repo_findAndCount repository (pageQuery options page_ limit_) (db w)
  = (DbOk (rows, count), s') →
  ∃ result,
    (BaseService.paginate repository options page_ limit_ w).1 = Ok result ∧
    (page (meta result) ≤ totalPages (meta result)
     ↔ (page_ - 1) * limit_ < total (meta result)).
Proof.
  intros Hpage Hlimit Hanswer.
  unfold BaseService.paginate, bind, await, ret. cbv zeta.
  fold (pageQuery options page_ limit_). rewrite Hanswer. simpl.
  eexists. split; [reflexivity |]. simpl.
  pose proof (Math_ceil_div_bounds (Z.of_N count) limit_ ltac:(lia)).
  split; intros; nia.
Qed.

Lemma paginate_page_in_range_iff_offset_below_total_witness :
  ∃ result,
    (BaseService.paginate testRepository noOptions 3 1 twoRows).1 = Ok result ∧
    (page (meta result) ≤ totalPages (meta result)
     ↔ (3 - 1) * 1 < total (meta result)).
Proof.
  apply (paginate_page_in_range_iff_offset_below_total testRepository noOptions
           3 1 twoRows [] 2%N [row1; row2]); [lia | lia | reflexivity].
Defined.

(** ** Create and update: validation, persistence and the file hook *)

(** X14: a body that violates the configured create (or update) shape is
    answered with a BadRequestException (HTTP 400) carrying exactly the
    violations the validator reports on the instance, and neither endpoint
    makes a data-access call: nothing is persisted. *)
Theorem invalid_body_rejected_before_persistence
    {Store : Type} (repository : Repository Store)
    (handleFiles : entity → list File → M Store ()) (entityName : string)
    (opts : CrudOptions) (dto : Dto) (body : value) (e : ValidationError)
    (es : list ValidationError) :
  validate dto (instantiate dto body) = e :: es →
  (CreateDto opts = Some dto →
   ∀ request files now w,
     BaseControllerHost.create repository handleFiles entityName opts body
       request files now w
     = (Throw (BadRequestException (inr (e :: es))), w)) ∧
  (UpdateDto opts = Some dto →
   ∀ id req now w,
     BaseControllerHost.update repository handleFiles entityName opts id body
       req now w
     = (Throw (BadRequestException (inr (e :: es))), w)) ∧
  getStatus (BadRequestException (inr (e :: es))) = 400.
Proof.
  intros Hviolations. split; [| split; [| reflexivity]].
  - intros Hdto request files now w.
    unfold BaseControllerHost.create, BaseControllerHost.validated.
    rewrite Hdto. unfold bind at 1. by rewrite Hviolations.
  - intros Hdto id req now w.
    unfold BaseControllerHost.update, BaseControllerHost.validated.
    rewrite Hdto. unfold bind at 1. by rewrite Hviolations.
Qed.

Lemma invalid_body_rejected_before_persistence_witness :
  BaseControllerHost.create testRepository MemoryRepository.handleFiles "Test"
    validatingOptions (VObj {[ "description" := VStr "Missing name" ]})
    {| url := "/tests" |} None "2025-04-05T10:00:00.000Z" twoRows
  = (Throw (BadRequestException (inr ["name must be a string"])), twoRows) ∧
  BaseControllerHost.update testRepository MemoryRepository.handleFiles "Test"
    validatingOptions 1 (VObj {[ "description" := VStr "Missing name" ]})
    {| url := "/tests/1" |} "2025-04-05T10:00:00.000Z" twoRows
  = (Throw (BadRequestException (inr ["name must be a string"])), twoRows).
Proof.
  destruct (invalid_body_rejected_before_persistence testRepository
              MemoryRepository.handleFiles "Test" validatingOptions CreateTestDto
              (VObj {[ "description" := VStr "Missing name" ]})
              "name must be a string" []) as (Hcreate & Hupdate & _);
    [vm_compute; reflexivity |].
  split; [by apply Hcreate | by apply Hupdate].
Defined.

(** The create endpoint on a body that passes validation, up to the file
    hook. *)
Lemma create_validated {Store : Type} (repository : Repository Store)
    (handleFiles : entity → list File → M Store ()) entityName opts body request
    files now (w : world Store) :
  passesValidation (CreateDto opts) body →
  let instance := repo_create repository (instanceOf (CreateDto opts) body) in
  let saved := repo_save repository instance (db w) in
  let w1 := {| db := saved.2; trace := trace w ++ [CallSave instance] |} in
  let respond (e : entity) :=
    successResponse (VObj e) (entityName +:+ " created successfully") 201
      (Some (url request)) (ResponseDto opts) false (serializationGroups opts) now in
  BaseControllerHost.create repository handleFiles entityName opts body request
    files now w =
  match saved.1 with
  | DbError reason => (Throw (DataAccessError reason), w1)
  | DbOk e =>
      match files with
      | Some (f :: fs) =>
          match handleFiles e (f :: fs) w1 with
          | (Ok _, w2) => (respond e, w2)
          | (Throw err, w2) => (Throw err, w2)
          end
      | _ => (respond e, w1)
      end
  end.
Proof.
  intros Hvalid. cbv zeta.
  unfold BaseControllerHost.create. unfold bind at 1.
  rewrite (validated_passes _ _ w Hvalid).
  destruct files as [[|f fs]|]; unfold BaseService.create, bind, await, ret, lift;
    destruct (repo_save repository _ (db w)) as [[e | reason] s1]; simpl;
    try reflexivity.
  by destruct (handleFiles e (f :: fs) _) as [[[] | err] w2].
Qed.

(** X15: on a body that passes validation and without files (none, or an
    empty list) the create endpoint makes exactly one data-access call, the
    save of the instance the repository builds from the validated body; when
    the save succeeds the envelope has status 201 and its data is the saved
    entity (not the body) shaped with the configured response shape. *)
Theorem create_persists_once_and_returns_saved
    {Store : Type} (repository : Repository Store)
    (handleFiles : entity → list File → M Store ()) (entityName : string)
    (opts : CrudOptions) body request files now (w : world Store) :
  passesValidation (CreateDto opts) body →
  files = None ∨ files = Some [] →
  let run := BaseControllerHost.create repository handleFiles entityName opts
               body request files now in
  let instance := repo_create repository (instanceOf (CreateDto opts) body) in
  calls_made run w = [CallSave instance] ∧
  ∀ saved s1,
    repo_save repository instance (db w) = (DbOk saved, s1) →
    ∃ env,
      (run w).1 = Ok env ∧ statusCode env = 201 ∧ success env = true ∧
      serialize (VObj saved) (ResponseDto opts) false (serializationGroups opts)
      = Ok (data env).
Proof.
  intros Hvalid Hfiles. cbv zeta. unfold calls_made.
  rewrite (create_validated repository handleFiles entityName opts body request
             files now w Hvalid). cbv zeta.
  destruct (repo_save repository _ (db w)) as [[e | reason] s1]; simpl.
  - destruct (successResponse_single_ok (VObj e)
                (entityName +:+ " created successfully") 201 (Some (url request))
                (ResponseDto opts) (serializationGroups opts) now)
      as (env & Henv & Hs & Hc & _ & _ & _ & Hd).
    destruct Hfiles as [-> | ->]; simpl; rewrite drop_app_length;
      (split; [done |]); intros saved s1' [= <- <-]; rewrite Henv; eauto.
  - destruct Hfiles as [-> | ->]; simpl; rewrite drop_app_length;
      (split; [done |]); by intros saved s1' [=].
Qed.

Lemma create_persists_once_and_returns_saved_witness :
  ∃ env,
    (BaseControllerHost.create testRepository MemoryRepository.handleFiles "Test"
       validatingOptions (VObj {[ "name" := VStr "A" ]}) {| url := "/tests" |}
       (Some []) "2025-04-05T10:00:00.000Z" twoRows).1 = Ok env ∧
    statusCode env = 201 ∧ success env = true ∧
    serialize (VObj {[ "id" := VNum 3; "name" := VStr "A" ]})
      (ResponseDto validatingOptions) false
      (serializationGroups validatingOptions) = Ok (data env).
Proof.
  destruct (create_persists_once_and_returns_saved testRepository
              MemoryRepository.handleFiles "Test" validatingOptions
              (VObj {[ "name" := VStr "A" ]}) {| url := "/tests" |} (Some [])
              "2025-04-05T10:00:00.000Z" twoRows) as [_ Hsaved].
  - reflexivity.
  - by right.
  - apply (Hsaved {[ "id" := VNum 3; "name" := VStr "A" ]}
                  [row1; row2; {[ "id" := VNum 3; "name" := VStr "A" ]}]).
    vm_compute. reflexivity.
Defined.

(** X16: the file hook is not run by the update endpoint, nor by the create
    endpoint when no file is supplied: their results do not depend on the
    hook. *)
Theorem file_hook_not_run_without_files
    {Store : Type} (repository : Repository Store)
    (hook1 hook2 : entity → list File → M Store ()) (entityName : string)
    (opts : CrudOptions) :
  (∀ id body req now w,
     BaseControllerHost.update repository hook1 entityName opts id body req now w
     = BaseControllerHost.update repository hook2 entityName opts id body req now w) ∧
  (∀ body request files now w,
     files = None ∨ files = Some [] →
     BaseControllerHost.create repository hook1 entityName opts body request
       files now w
     = BaseControllerHost.create repository hook2 entityName opts body request
         files now w).
Proof.
  split.
  - intros id body req now w. unfold BaseControllerHost.update, BaseService.update.
    unfold bind, await, ret, lift.
    destruct (BaseControllerHost.validated _ _ w) as [[instance | err] w0];
      [| reflexivity].
    destruct (repo_update repository _ _ (db w0)) as [[[] | reason] s1];
      simpl; [| reflexivity].
    destruct (repo_findOne repository _ s1) as [[[row|] | reason] s2];
      reflexivity.
  - intros body request files now w [-> | ->]; reflexivity.
Qed.

Lemma file_hook_not_run_without_files_witness :
  BaseControllerHost.create testRepository MemoryRepository.handleFiles "Test"
    testOptions (VObj {[ "name" := VStr "A" ]}) {| url := "/tests" |} (Some [])
    "2025-04-05T10:00:00.000Z" twoRows
  = BaseControllerHost.create testRepository rejectingHook "Test"
      testOptions (VObj {[ "name" := VStr "A" ]}) {| url := "/tests" |} (Some [])
      "2025-04-05T10:00:00.000Z" twoRows.
Proof.
  apply (proj2 (file_hook_not_run_without_files testRepository
                  MemoryRepository.handleFiles rejectingHook "Test" testOptions)).
  by right.
Defined.

(** X17: with files supplied, the hook runs after the save, on the saved
    entity and in the world the save left; when the hook fails, the create
    endpoint fails with the hook's exception although the save has been
    made: the row stays persisted. *)
Theorem create_fails_after_save_when_hook_fails
    {Store : Type} (repository : Repository Store)
    (handleFiles : entity → list File → M Store ()) (entityName : string)
    (opts : CrudOptions) body request (f : File) (fs : list File) now
    (w : world Store) saved s1 err w2 :
  passesValidation (CreateDto opts) body →
  let instance := repo_create repository (instanceOf (CreateDto opts) body) in
  repo_save repository instance (db w) = (DbOk saved, s1) →
  handleFiles saved (f :: fs)
    {| db := s1; trace := trace w ++ [CallSave instance] |} = (Throw err, w2) →
  BaseControllerHost.create repository handleFiles entityName opts body request
    (Some (f :: fs)) now w = (Throw err, w2).
Proof.
  intros Hvalid instance Hsave Hhook.
  rewrite (create_validated repository handleFiles entityName opts body request
             (Some (f :: fs)) now w Hvalid). cbv zeta.
  fold instance. rewrite Hsave. simpl. by rewrite Hhook.
Qed.

Lemma create_fails_after_save_when_hook_fails_witness :
  BaseControllerHost.create testRepository rejectingHook "Test" testOptions
    (VObj {[ "name" := VStr "A" ]}) {| url := "/tests" |} (Some ["avatar.png"])
    "2025-04-05T10:00:00.000Z" twoRows
  = (Throw (DataAccessError "upload failed"),
     {| db := [row1; row2; {[ "id" := VNum 3; "name" := VStr "A" ]}];
        trace := [CallSave {[ "name" := VStr "A" ]}] |}).
Proof.
  apply (create_fails_after_save_when_hook_fails testRepository rejectingHook
           "Test" testOptions (VObj {[ "name" := VStr "A" ]}) {| url := "/tests" |}
           "avatar.png" [] "2025-04-05T10:00:00.000Z" twoRows
           {[ "id" := VNum 3; "name" := VStr "A" ]}
           [row1; row2; {[ "id" := VNum 3; "name" := VStr "A" ]}]).
  - exact I.
  - vm_compute. reflexivity.
  - reflexivity.
Defined.

(** ** Delete *)

(** X18: the delete endpoint makes exactly one data-access call; it is the
    soft delete of the identifier unless the [softDelete] option is
    explicitly false (an absent option means soft delete), and the physical
    delete only then.  The answer is the 200 envelope exactly when that call
    succeeds; a failure of the call surfaces with its reason. *)
Theorem delete_is_soft_unless_disabled
    {Store : Type} (repository : Repository Store) (entityName : string)
    (opts : CrudOptions) (id : Z) req now (w : world Store) :
  let run := BaseControllerHost.delete repository entityName opts id req now in
  (softDelete opts ≠ Some false →
   calls_made run w = [CallSoftDelete id] ∧
   ((∃ env, (run w).1 = Ok env ∧ statusCode env = 200) ↔
    (repo_softDelete repository id (db w)).1 = DbOk ()) ∧
   ∀ reason, (repo_softDelete repository id (db w)).1 = DbError reason →
             (run w).1 = Throw (DataAccessError reason)) ∧
  (softDelete opts = Some false →
   calls_made run w = [CallDelete id] ∧
   ((∃ env, (run w).1 = Ok env ∧ statusCode env = 200) ↔
    (repo_delete repository id (db w)).1 = DbOk ()) ∧
   ∀ reason, (repo_delete repository id (db w)).1 = DbError reason →
             (run w).1 = Throw (DataAccessError reason)).
Proof.
  cbv zeta. unfold calls_made. rewrite delete_response. cbv zeta. split.
  - intros Hsoft.
    assert (Hdefault : default true (softDelete opts) = true)
      by (destruct (softDelete opts) as [[|]|]; done).
    rewrite Hdefault. cbn [fst snd trace].
    rewrite drop_app_length. split; [done |].
    destruct (repo_softDelete repository id (db w)).1 as [[] | reason]; simpl.
    + split; [split; eauto | by intros ? [=]].
    + split; [split; [by intros (? & ? & ?) | done] | by intros ? [= ->]].
  - intros Hhard. rewrite Hhard.
    change (default true (Some false)) with false. cbn [fst snd trace].
    rewrite drop_app_length. split; [done |].
    destruct (repo_delete repository id (db w)).1 as [[] | reason]; simpl.
    + split; [split; eauto | by intros ? [=]].
    + split; [split; [by intros (? & ? & ?) | done] | by intros ? [= ->]].
Qed.

Lemma delete_is_soft_unless_disabled_witness :
  calls_made (BaseControllerHost.delete testRepository "Test" bareOptions 1
                {| url := "/tests/1" |} "2025-04-05T10:00:00.000Z") twoRows
  = [CallSoftDelete 1] ∧
  calls_made (BaseControllerHost.delete testRepository "Test" validatingOptions 1
                {| url := "/tests/1" |} "2025-04-05T10:00:00.000Z") twoRows
  = [CallDelete 1].
Proof.
  split.
  - apply (proj1 (delete_is_soft_unless_disabled testRepository "Test" bareOptions
                    1 {| url := "/tests/1" |} "2025-04-05T10:00:00.000Z" twoRows)).
    discriminate.
  - apply (proj2 (delete_is_soft_unless_disabled testRepository "Test"
                    validatingOptions 1 {| url := "/tests/1" |}
                    "2025-04-05T10:00:00.000Z" twoRows)).
    reflexivity.
Defined.

(** ** findById *)

(** X19: [findById] makes one lookup.  Without options, or with options
    that carry no criteria, the lookup is by the identifier; criteria carried
    by the options replace the identifier, so that the lookup is by those
    criteria alone.  An absent row raises a NotFoundException (HTTP 404)
    whose message names the entity and the identifier; a row found is
    returned as it is. *)
Theorem findById_lookup_and_not_found
    {Store : Type} (repository : Repository Store) (id : Z)
    (options : option FindOptions) (w : world Store) :
  let run := BaseServiceById.findById repository id options in
  let query := BaseServiceById.findByIdOptions id options in
  calls_made run w = [CallFindOne query] ∧
  ((options = None ∨ ∃ o, options = Some o ∧ fo_where o = None) →
   fo_where query = Some (VObj {[ "id" := VNum id ]})) ∧
  (∀ o criteria, options = Some o → fo_where o = Some criteria →
                 fo_where query = Some criteria) ∧
  (∀ e, (repo_findOne repository query (db w)).1 = DbOk (Some e) →
        (run w).1 = Ok e) ∧
  ((repo_findOne repository query (db w)).1 = DbOk None →
   ∃ msg, (run w).1 = Throw (NotFoundException msg) ∧
          getStatus (NotFoundException msg) = 404 ∧
          substring_of (metadata_name repository) msg ∧
          substring_of (pretty id) msg).
Proof.
  cbv zeta. unfold calls_made, BaseServiceById.findById, bind, await, ret, throw.
  cbv zeta. split; [| split; [| split; [| split]]].
  - by destruct (repo_findOne repository _ (db w)) as [[[e|] | reason] s1];
      simpl; rewrite drop_app_length.
  - intros [-> | (o & -> & Ho)]; [done |].
    unfold BaseServiceById.findByIdOptions. simpl. by rewrite Ho.
  - intros o criteria -> Ho.
    unfold BaseServiceById.findByIdOptions. simpl. by rewrite Ho.
  - intros e.
    destruct (repo_findOne repository _ (db w)) as [[[e'|] | reason] s1];
      simpl; congruence.
  - destruct (repo_findOne repository _ (db w)) as [[[e'|] | reason] s1];
      simpl; try done.
    intros _. eexists. split; [reflexivity |]. split; [reflexivity |].
    unfold BaseService.getEntityName. split.
    + apply substring_of_append_r, substring_of_refl.
    + do 2 apply substring_of_append_l.
      apply substring_of_append_r, substring_of_refl.
Qed.

Lemma findById_lookup_and_not_found_witness :
  (BaseServiceById.findById testRepository 1 (Some byNameItem2) twoRows).1
  = Ok row2 ∧
  (BaseServiceById.findById testRepository 1 None twoRows).1 = Ok row1 ∧
  ∃ msg,
    (BaseServiceById.findById testRepository 999 None twoRows).1
    = Throw (NotFoundException msg) ∧
    getStatus (NotFoundException msg) = 404 ∧
    substring_of (metadata_name testRepository) msg ∧
    substring_of (pretty 999) msg.
Proof.
  split; [| split].
  - apply (findById_lookup_and_not_found testRepository 1 (Some byNameItem2)
             twoRows). reflexivity.
  - apply (findById_lookup_and_not_found testRepository 1 None twoRows).
    reflexivity.
  - apply (findById_lookup_and_not_found testRepository 999 None twoRows).
    reflexivity.
Defined.

(** ** Shaping *)

(** X20: with a response shape and the [isArray] flag, [successResponse]
    returns an envelope exactly when the payload is an array; any other
    payload (null, a single entity, a paginated result) raises a TypeError.
    Without response shape it returns every payload unchanged, whatever the
    flag and the groups. *)
Theorem successResponse_isArray_needs_array
    (data_ : value) msg code p (shape : ClassConstructor) groups now :
  ((∃ env, successResponse data_ msg code p (Some shape) true groups now = Ok env)
   ↔ Array_isArray data_ = true) ∧
  (Array_isArray data_ = false →
   successResponse data_ msg code p (Some shape) true groups now = Throw TypeError) ∧
  ∀ isArray,
    successResponse data_ msg code p None isArray groups now
    = Ok {| success := true; statusCode := code; message := msg;
            timestamp := now; path := p; data := data_ |}.
Proof.
  split; [| split].
  - destruct data_; simpl; split; try done; try by intros [? ?]. eauto.
  - by destruct data_.
  - reflexivity.
Qed.

Lemma successResponse_isArray_needs_array_witness :
  successResponse (VObj pageOfOne) "Test retrieved successfully" 200
    (Some "/tests") (Some TestResponseDto) true (Some ["detail"])
    "2025-04-05T10:00:00.000Z" = Throw TypeError.
Proof.
  apply (successResponse_isArray_needs_array (VObj pageOfOne)
           "Test retrieved successfully" 200 (Some "/tests") TestResponseDto
           (Some ["detail"]) "2025-04-05T10:00:00.000Z").
  reflexivity.
Defined.

Lemma plainToInstance_idempotent shape groups v :
  plainToInstance shape (plainToInstance shape v groups) groups
  = plainToInstance shape v groups.
Proof.
  induction v as [ | | b | n | s | m | l IH] using value_array_ind;
    simpl; try done.
  - f_equal. apply map_eq. intros k.
    destruct (filter _ m !! k) as [x|] eqn:Hk.
    + apply map_lookup_filter_Some. split; [done |].
      by apply map_lookup_filter_Some in Hk as [_ ?].
    + apply map_lookup_filter_None. left. done.
  - f_equal. rewrite map_map. induction IH as [|x l Hx _ IHl]; [done |].
    simpl. by rewrite Hx, IHl.
Qed.

Lemma truthy_and_isArray (v : value) :
  truthy v && Array_isArray v = Array_isArray v.
Proof. destruct v; simpl; by rewrite ?andb_false_r. Qed.

Lemma opt_get_plainToInstance shape groups v k :
  opt_get (plainToInstance shape v groups) k = opt_get v k ∨
  opt_get (plainToInstance shape v groups) k = VUndefined.
Proof.
  destruct v as [ | | b | n | s | l | m]; simpl; try by left.
  destruct (filter _ m !! k) as [x|] eqn:Hk; [left | by right].
  apply map_lookup_filter_Some in Hk as [Hk _]. by rewrite Hk.
Qed.

Lemma isArray_opt_get (v : value) (k : string) :
  Array_isArray (opt_get v k) = true →
  ∃ m items, v = VObj m ∧ m !! k = Some (VArr items).
Proof.
  destruct v as [ | | b | n | s | l | m]; simpl; try done.
  destruct (m !! k) as [[ | | b | n | s | items | m']|] eqn:Hk; simpl; try done.
  intros _. eauto.
Qed.

(** X21: shaping is idempotent: a payload that [successResponse] has shaped
    (without the [isArray] flag) is left unchanged when it is shaped again
    with the same response shape and groups. *)
Theorem serialize_idempotent (data_ shaped : value)
    (shape : option ClassConstructor) groups :
  serialize data_ shape false groups = Ok shaped →
  serialize shaped shape false groups = Ok shaped.
Proof.
  unfold serialize. destruct shape as [dto|]; [| by intros [= ->]].
  rewrite !truthy_and_isArray.
  destruct (Array_isArray (opt_get data_ "data")) eqn:Hpage.
  - apply isArray_opt_get in Hpage as (m & items & -> & Hitems).
    cbn [opt_get spread]. rewrite Hitems. cbn [default from_option id arr_items].
    intros [= <-]. cbn [opt_get spread]. rewrite lookup_insert_eq.
    cbn [default from_option id Array_isArray arr_items].
    rewrite insert_insert_eq, map_map. do 4 f_equal.
    apply map_ext. intros x. apply plainToInstance_idempotent.
  - intros [= <-].
    destruct (opt_get_plainToInstance dto groups data_ "data") as [-> | ->].
    + rewrite Hpage. by rewrite plainToInstance_idempotent.
    + cbn [Array_isArray]. by rewrite plainToInstance_idempotent.
Qed.

Lemma serialize_idempotent_witness :
  serialize (VObj {[ "data" := VArr [VObj {[ "id" := VNum 7; "name" := VStr "Target" ]}];
                     "meta" := VObj {[ "total" := VNum 1; "page" := VNum 1;
                                       "limit" := VNum 10; "totalPages" := VNum 1 ]} ]})
    (Some TestResponseDto) false (Some ["detail"])
  = Ok (VObj {[ "data" := VArr [VObj {[ "id" := VNum 7; "name" := VStr "Target" ]}];
                "meta" := VObj {[ "total" := VNum 1; "page" := VNum 1;
                                  "limit" := VNum 10; "totalPages" := VNum 1 ]} ]}).
Proof.
  apply (serialize_idempotent (VObj pageOfOne)).
  vm_compute. reflexivity.
Defined.

(** ** Failures of the data-access layer *)

(** X22: a failure of the data-access call of an endpoint surfaces as that
    failure, with its reason (HTTP 500), and ends the operation: the detail
    and list endpoints answer neither 404 nor an envelope, the create
    endpoint does not run the file hook, and the update endpoint makes no
    re-fetch after a failed update. *)
Theorem data_access_failure_surfaces
    {Store : Type} (repository : Repository Store)
    (handleFiles : entity → list File → M Store ()) (entityName : string)
    (opts : CrudOptions) (reason : string) (w : world Store) :
  (∀ id req include now,
     includesAllowed (allowedRelationsFindOne opts) include →
     (repo_findOne repository (findOneOptions id include) (db w)).1 = DbError reason →
     (BaseControllerHost.findOne repository entityName opts id req include now w).1
     = Throw (DataAccessError reason)) ∧
  (∀ paginationDto req now,
     includesAllowed (allowedRelationsFindAll opts) (q_include paginationDto) →
     (repo_findAndCount repository
        (pageQuery (findAllOptions paginationDto)
           (default 1 (q_page paginationDto))
           (Z.min (default 10 (q_limit paginationDto)) 100)) (db w)).1
     = DbError reason →
     (BaseControllerHost.findAll repository entityName opts paginationDto req now w).1
     = Throw (DataAccessError reason)) ∧
  (∀ body request files now,
     passesValidation (CreateDto opts) body →
     (repo_save repository
        (repo_create repository (instanceOf (CreateDto opts) body)) (db w)).1
     = DbError reason →
     let run := BaseControllerHost.create repository handleFiles entityName opts
                  body request files now in
     (run w).1 = Throw (DataAccessError reason) ∧
     calls_made run w
     = [CallSave (repo_create repository (instanceOf (CreateDto opts) body))]) ∧
  (∀ id body req now,
     passesValidation (UpdateDto opts) body →
     (repo_update repository (VObj {[ "id" := VNum id ]})
        (instanceOf (UpdateDto opts) body) (db w)).1 = DbError reason →
     let run := BaseControllerHost.update repository handleFiles entityName opts
                  id body req now in
     (run w).1 = Throw (DataAccessError reason) ∧
     calls_made run w
     = [CallUpdate (VObj {[ "id" := VNum id ]}) (instanceOf (UpdateDto opts) body)]) ∧
  getStatus (DataAccessError reason) = 500.
Proof.
  split; [| split; [| split; [| split; [| reflexivity]]]].
  - intros id req include now Hok Hfail.
    rewrite (findOne_accepted repository entityName opts id req include now w Hok).
    cbv zeta. by rewrite Hfail.
  - intros paginationDto req now Hok Hfail.
    rewrite (findAll_accepted repository entityName opts paginationDto req now w Hok).
    cbv zeta. by rewrite Hfail.
  - intros body request files now Hvalid Hfail. cbv zeta. unfold calls_made.
    rewrite (create_validated repository handleFiles entityName opts body request
               files now w Hvalid). cbv zeta. rewrite Hfail.
    cbn [fst snd trace]. by rewrite drop_app_length.
  - intros id body req now Hvalid Hfail. cbv zeta. unfold calls_made.
    rewrite (update_validated repository handleFiles entityName opts id body req
               now w Hvalid). cbv zeta. rewrite Hfail.
    cbn [fst snd trace]. by rewrite drop_app_length.
Qed.

Lemma data_access_failure_surfaces_witness :
  (BaseControllerHost.findOne failingRepository "Test" testOptions 1
     {| url := "/tests/1" |} None "2025-04-05T10:00:00.000Z" offline).1
  = Throw (DataAccessError "connection lost") ∧
  (BaseControllerHost.findAll failingRepository "Test" testOptions pageOneLimitOne
     {| url := "/tests" |} "2025-04-05T10:00:00.000Z" offline).1
  = Throw (DataAccessError "connection lost") ∧
  calls_made (BaseControllerHost.create failingRepository rejectingHookOffline
                "Test" testOptions (VObj {[ "name" := VStr "A" ]})
                {| url := "/tests" |} (Some ["avatar.png"])
                "2025-04-05T10:00:00.000Z") offline
  = [CallSave {[ "name" := VStr "A" ]}] ∧
  calls_made (BaseControllerHost.update failingRepository rejectingHookOffline
                "Test" testOptions 1 (VObj {[ "name" := VStr "A" ]})
                {| url := "/tests/1" |} "2025-04-05T10:00:00.000Z") offline
  = [CallUpdate (VObj {[ "id" := VNum 1 ]}) (VObj {[ "name" := VStr "A" ]})].
Proof.
  destruct (data_access_failure_surfaces failingRepository rejectingHookOffline
              "Test" testOptions "connection lost" offline)
    as (Hone & Hall & Hcreate & Hupdate & _).
  split; [| split; [| split]].
  - by apply Hone.
  - by apply Hall.
  - exact (proj2 (Hcreate (VObj {[ "name" := VStr "A" ]}) {| url := "/tests" |}
                   (Some ["avatar.png"]) "2025-04-05T10:00:00.000Z" I eq_refl)).
  - exact (proj2 (Hupdate 1 (VObj {[ "name" := VStr "A" ]}) {| url := "/tests/1" |}
                   "2025-04-05T10:00:00.000Z" I eq_refl)).
Defined.
